(** * HealthAssist: the AI response normalizer, the diagnosis entry point
      and the symptom form

    A shallow embedding of the AI service module ([AI_CONFIG], the prompt
    templates, the class [AIService] with its provider calls,
    [parseAIResponse] and [getMockFallback], [getAIService] and the exported
    [diagnose]) and of [SymptomForm.handleSubmit], together with the part of
    the JavaScript runtime these functions rest on: strings as sequences of
    UTF-16 code units, numbers as IEEE 754 binary64 values, [JSON.parse],
    [String.prototype.match/replace/split/trim], [Array.prototype.join],
    [ToBoolean], [ToPrimitive], [ToNumber], [Math.max] and [Math.min].

    Calls to [console.log/warn/error] have no effect on any value the
    program computes and are left out. *)

From Stdlib Require Import List ZArith NArith Bool String Ascii Lia.
From Stdlib Require Import Floats.SpecFloat.
Import ListNotations.

Set Warnings "-register-all".

Open Scope string_scope.
Open Scope list_scope.

(* ===================================================================== *)
(** * The JavaScript runtime                                              *)
(* ===================================================================== *)

Module JS.

(** ** Strings

    A JavaScript string is a finite sequence of 16-bit code units. *)

Definition jsstring := list N.

Definition js (s : string) : jsstring :=
  map N_of_ascii (list_ascii_of_string s).

(** [jsq] transcribes a literal that contains double quotes: the backquote
    (code unit 96), which none of the transcribed literals contains, stands
    for the double quote (code unit 34). *)
Definition jsq (s : string) : jsstring :=
  map (fun c => if N.eqb c 96 then 34%N else c) (js s).

Coercion js : string >-> jsstring.

Fixpoint str_eqb (a b : jsstring) : bool :=
  match a, b with
  | [], [] => true
  | x :: a', y :: b' => N.eqb x y && str_eqb a' b'
  | _, _ => false
  end.

(** [s.startsWith(p)], returning what follows the prefix. *)
Fixpoint strip_prefix (p s : jsstring) : option jsstring :=
  match p, s with
  | [], _ => Some s
  | x :: p', y :: s' => if N.eqb x y then strip_prefix p' s' else None
  | _ :: _, [] => None
  end.

(** ** Numbers

    The Number type is IEEE 754 binary64; [spec_float] carries a single NaN,
    as JavaScript does. *)

Definition number := spec_float.

Definition prec : Z := 53.
Definition emax : Z := 1024.

Definition NaN : number := S754_nan.
Definition pos_zero : number := S754_zero false.
Definition Infinity : number := S754_infinity false.

(** The Number value of the integer [z] (round to nearest, ties to even). *)
Definition number_of_Z (z : Z) : number :=
  binary_normalize prec emax z 0 false.

(** The Number value of the decimal [(-1)^neg * m * 10^e]: the mathematical
    value rounded to nearest, ties to even.  A zero mantissa keeps its sign
    (the literal [-0] denotes negative zero). *)
Definition number_of_decimal (neg : bool) (m : N) (e : Z) : number :=
  match m with
  | N0 => S754_zero neg
  | Npos p =>
      match e with
      | Zneg k =>
          SFdiv prec emax (S754_finite neg p 0)
                (S754_finite false (Pos.pow 10 k) 0)
      | Z0 => binary_normalize prec emax (if neg then Zneg p else Zpos p) 0 false
      | Zpos k =>
          binary_normalize prec emax
            (if neg then Zneg (p * Pos.pow 10 k) else Zpos (p * Pos.pow 10 k))
            0 false
      end
  end.

Definition one : number := Eval cbv in number_of_decimal false 1 0.

(** ** Code units *)

Definition chr (a : ascii) : N := N_of_ascii a.
Arguments chr a%_char : simpl never.

Definition DQUOTE : N := 34.
Definition BACKSLASH : N := 92.

Definition is_digit (c : N) : bool := (N.leb (chr "0") c && N.leb c (chr "9"))%bool.

Definition digit_value (c : N) : N := (c - chr "0")%N.

Definition hex_value (c : N) : option N :=
  if is_digit c then Some (c - chr "0")%N
  else if (N.leb (chr "a") c && N.leb c (chr "f"))%bool then Some (c - chr "a" + 10)%N
  else if (N.leb (chr "A") c && N.leb c (chr "F"))%bool then Some (c - chr "A" + 10)%N
  else None.

(** WhiteSpace and LineTerminator code units, as recognised by
    [String.prototype.trim] and by the string-to-number conversion:
    TAB, LF, VT, FF, CR, SP, NBSP, the Unicode space separators,
    LS, PS and the byte order mark. *)
Definition is_white_space (c : N) : bool :=
  ((N.leb 9 c && N.leb c 13)
   || N.eqb c 32 || N.eqb c 160 || N.eqb c 5760
   || (N.leb 8192 c && N.leb c 8202)
   || N.eqb c 8232 || N.eqb c 8233 || N.eqb c 8239 || N.eqb c 8287
   || N.eqb c 12288 || N.eqb c 65279)%bool.

Fixpoint trim_start (s : jsstring) : jsstring :=
  match s with
  | c :: s' => if is_white_space c then trim_start s' else s
  | [] => []
  end.

Definition trim_end (s : jsstring) : jsstring := rev (trim_start (rev s)).

(** [s.trim()] *)
Definition trim (s : jsstring) : jsstring := trim_end (trim_start s).

(** [s.split(sep)] for a separator of one code unit: the pieces between
    the occurrences of [sep], in order; the empty string gives one empty
    piece. *)
Fixpoint split (sep : N) (s : jsstring) : list jsstring :=
  match s with
  | [] => [[]]
  | c :: s' =>
      if N.eqb c sep then [] :: split sep s'
      else match split sep s' with
           | piece :: pieces => (c :: piece) :: pieces
           | [] => [[c]]
           end
  end.

(** [a.join(sep)] on an array of strings. *)
Fixpoint join (sep : jsstring) (a : list jsstring) : jsstring :=
  match a with
  | [] => []
  | [x] => x
  | x :: rest => x ++ sep ++ join sep rest
  end.

(** The first occurrence of [p] in [s]: what precedes it and what follows. *)
Fixpoint find (p s : jsstring) : option (jsstring * jsstring) :=
  match strip_prefix p s with
  | Some after => Some ([], after)
  | None =>
      match s with
      | [] => None
      | c :: s' =>
          match find p s' with
          | Some (before, after) => Some (c :: before, after)
          | None => None
          end
      end
  end.

(** GetSubstitution for a string pattern (no captures): in the replacement
    text [$$] stands for a dollar sign, [$&] for the matched text, [$`] for
    what precedes the match and [$'] for what follows it; every other code
    unit stands for itself. *)
Fixpoint GetSubstitution (matched before after repl : jsstring) : jsstring :=
  match repl with
  | [] => []
  | c :: rest =>
      if N.eqb c (chr "$") then
        match rest with
        | d :: rest' =>
            if N.eqb d (chr "$") then chr "$" :: GetSubstitution matched before after rest'
            else if N.eqb d (chr "&") then matched ++ GetSubstitution matched before after rest'
            else if N.eqb d (chr "`") then before ++ GetSubstitution matched before after rest'
            else if N.eqb d (chr "'") then after ++ GetSubstitution matched before after rest'
            else c :: GetSubstitution matched before after rest
        | [] => [c]
        end
      else c :: GetSubstitution matched before after rest
  end.

(** [s.replace(p, repl)] with a string pattern: the first occurrence only. *)
Definition replace (s p repl : jsstring) : jsstring :=
  match find p s with
  | Some (before, after) => before ++ GetSubstitution p before after repl ++ after
  | None => s
  end.

(** The longest prefix of [s] that ends in a closing brace. *)
Fixpoint upto_last_close (s : jsstring) : option jsstring :=
  match s with
  | [] => None
  | c :: s' =>
      match upto_last_close s' with
      | Some p => Some (c :: p)
      | None => if N.eqb c (chr "}") then Some [c] else None
      end
  end.

(** [s.match(/\{[\s\S]*\}/)]: the match, element 0 of the result array, or
    [None] for [null].  The pattern is tried at each position from the left;
    at an opening brace the greedy [[\s\S]*] takes everything and backtracks
    to the last closing brace. *)
Fixpoint match_braces (s : jsstring) : option jsstring :=
  match s with
  | [] => None
  | c :: s' =>
      if N.eqb c (chr "{") then
        match upto_last_close s' with
        | Some p => Some (c :: p)
        | None => match_braces s'
        end
      else match_braces s'
  end.

(** ** Values

    The values this program handles: [undefined] and what [JSON.parse]
    builds.  An object keeps its properties as they were written; reading a
    property takes the last one of that name, as [JSON.parse] lets a later
    duplicate key overwrite an earlier one. *)

Inductive value :=
| Undefined
| Null
| Bool (b : bool)
| Number (x : number)
| String (s : jsstring)
| Array (elements : list value)
| Object (properties : list (jsstring * value)).

Definition is_nan (x : number) : bool :=
  match x with S754_nan => true | _ => false end.

(** ToBoolean *)
Definition ToBoolean (v : value) : bool :=
  match v with
  | Undefined | Null => false
  | Bool b => b
  | Number x => match x with S754_zero _ | S754_nan => false | _ => true end
  | String s => match s with [] => false | _ => true end
  | Array _ | Object _ => true
  end.

(** [a || b] *)
Definition or_else (a b : value) : value := if ToBoolean a then a else b.

(** [a ?? b] *)
Definition nullish_else (a b : value) : value :=
  match a with Undefined | Null => b | _ => a end.

(** A run of decimal digits: they are appended to the mantissa [m] and
    counted in [n]. *)
Fixpoint digits (s : jsstring) (m : N) (n : Z) : N * Z * jsstring :=
  match s with
  | c :: s' => if is_digit c then digits s' (10 * m + digit_value c)%N (n + 1)%Z
               else (m, n, s)
  | [] => (m, n, [])
  end.

Definition sign (s : jsstring) : bool * jsstring :=
  match s with
  | c :: s' => if N.eqb c (chr "-") then (true, s') else (false, s)
  | [] => (false, s)
  end.

(** An optional exponent part: [e] or [E], an optional sign, one digit or
    more.  [None] when the [e] is not followed by digits. *)
Definition exponent (s : jsstring) : option (Z * jsstring) :=
  match s with
  | c :: s' =>
      if (N.eqb c (chr "e") || N.eqb c (chr "E"))%bool then
        let '(neg, s'') :=
          match s' with
          | d :: r => if N.eqb d (chr "+") then (false, r)
                      else if N.eqb d (chr "-") then (true, r) else (false, s')
          | [] => (false, s')
          end in
        let '(m, n, rest) := digits s'' 0 0 in
        if Z.eqb n 0 then None
        else Some (if neg then (- Z.of_N m)%Z else Z.of_N m, rest)
      else Some (0%Z, s)
  | [] => Some (0%Z, s)
  end.

(** A JSON number at the head of [s]: an optional minus sign, an integer
    part without superfluous leading zero, an optional fraction with one
    digit or more, an optional exponent. *)
Definition JSON_number (s : jsstring) : option (number * jsstring) :=
  let '(neg, s1) := sign s in
  match s1 with
  | c :: r =>
      if is_digit c then
        let '(m, _, s2) := if N.eqb c (chr "0") then (0%N, 1%Z, r) else digits s1 0 0 in
        let fraction :=
          match s2 with
          | d :: r2 =>
              if N.eqb d (chr ".") then
                let '(m', n', s3) := digits r2 m 0 in
                if Z.eqb n' 0 then None else Some (m', n', s3)
              else Some (m, 0%Z, s2)
          | [] => Some (m, 0%Z, s2)
          end in
        match fraction with
        | Some (m', n', s3) =>
            match exponent s3 with
            | Some (e, s4) => Some (number_of_decimal neg m' (e - n'), s4)
            | None => None
            end
        | None => None
        end
      else None
  | [] => None
  end.

(** The inside of a JSON string, after the opening quote: the string's
    value and what follows the closing quote. *)
Fixpoint JSON_string (s : jsstring) : option (jsstring * jsstring) :=
  let cons c r := match r with Some (t, rest) => Some (c :: t, rest) | None => None end in
  match s with
  | [] => None
  | c :: s1 =>
      if N.eqb c DQUOTE then Some ([], s1)
      else if N.eqb c BACKSLASH then
        match s1 with
        | e :: s2 =>
            if N.eqb e DQUOTE then cons DQUOTE (JSON_string s2)
            else if N.eqb e BACKSLASH then cons BACKSLASH (JSON_string s2)
            else if N.eqb e (chr "/") then cons (chr "/") (JSON_string s2)
            else if N.eqb e (chr "b") then cons 8%N (JSON_string s2)
            else if N.eqb e (chr "f") then cons 12%N (JSON_string s2)
            else if N.eqb e (chr "n") then cons 10%N (JSON_string s2)
            else if N.eqb e (chr "r") then cons 13%N (JSON_string s2)
            else if N.eqb e (chr "t") then cons 9%N (JSON_string s2)
            else if N.eqb e (chr "u") then
              match s2 with
              | h1 :: h2 :: h3 :: h4 :: s3 =>
                  match hex_value h1, hex_value h2, hex_value h3, hex_value h4 with
                  | Some a, Some b, Some c3, Some d =>
                      cons (((a * 16 + b) * 16 + c3) * 16 + d)%N (JSON_string s3)
                  | _, _, _, _ => None
                  end
              | _ => None
              end
            else None
        | [] => None
        end
      else if N.ltb c 32 then None
      else cons c (JSON_string s1)
  end.

(** JSON white space: TAB, LF, CR, SP. *)
Fixpoint skip_ws (s : jsstring) : jsstring :=
  match s with
  | c :: s' => if (N.eqb c 9 || N.eqb c 10 || N.eqb c 13 || N.eqb c 32)%bool
               then skip_ws s' else s
  | [] => []
  end.

(** A JSON value at the head of [s], after white space, and what follows
    it.  [JSON_elements] reads the elements of an array up to the closing
    bracket and [JSON_members] the members of an object up to the closing
    brace.  Among two consecutive nested calls one consumes a code unit at
    least, so a fuel of twice the length of the text is never used up. *)
Fixpoint JSON_value (fuel : nat) (s : jsstring) : option (value * jsstring) :=
  match fuel with
  | O => None
  | S fuel' =>
      match skip_ws s with
      | [] => None
      | c :: r =>
          if N.eqb c DQUOTE then
            match JSON_string r with
            | Some (t, rest) => Some (String t, rest)
            | None => None
            end
          else if N.eqb c (chr "[") then
            match skip_ws r with
            | d :: r' =>
                if N.eqb d (chr "]") then Some (Array [], r')
                else match JSON_elements fuel' r with
                     | Some (vs, rest) => Some (Array vs, rest)
                     | None => None
                     end
            | [] => None
            end
          else if N.eqb c (chr "{") then
            match skip_ws r with
            | d :: r' =>
                if N.eqb d (chr "}") then Some (Object [], r')
                else match JSON_members fuel' r with
                     | Some (ps, rest) => Some (Object ps, rest)
                     | None => None
                     end
            | [] => None
            end
          else
            match strip_prefix "true" (c :: r), strip_prefix "false" (c :: r),
                  strip_prefix "null" (c :: r) with
            | Some rest, _, _ => Some (Bool true, rest)
            | _, Some rest, _ => Some (Bool false, rest)
            | _, _, Some rest => Some (Null, rest)
            | _, _, _ =>
                match JSON_number (c :: r) with
                | Some (x, rest) => Some (Number x, rest)
                | None => None
                end
            end
      end
  end
with JSON_elements (fuel : nat) (s : jsstring) : option (list value * jsstring) :=
  match fuel with
  | O => None
  | S fuel' =>
      match JSON_value fuel' s with
      | Some (v, rest) =>
          match skip_ws rest with
          | c :: r =>
              if N.eqb c (chr ",") then
                match JSON_elements fuel' r with
                | Some (vs, rest') => Some (v :: vs, rest')
                | None => None
                end
              else if N.eqb c (chr "]") then Some ([v], r)
              else None
          | [] => None
          end
      | None => None
      end
  end
with JSON_members (fuel : nat) (s : jsstring) : option (list (jsstring * value) * jsstring) :=
  match fuel with
  | O => None
  | S fuel' =>
      match skip_ws s with
      | q :: r0 =>
          if N.eqb q DQUOTE then
            match JSON_string r0 with
            | Some (k, r1) =>
                match skip_ws r1 with
                | colon :: r2 =>
                    if N.eqb colon (chr ":") then
                      match JSON_value fuel' r2 with
                      | Some (v, rest) =>
                          match skip_ws rest with
                          | c :: r =>
                              if N.eqb c (chr ",") then
                                match JSON_members fuel' r with
                                | Some (ps, rest') => Some ((k, v) :: ps, rest')
                                | None => None
                                end
                              else if N.eqb c (chr "}") then Some ([(k, v)], r)
                              else None
                          | [] => None
                          end
                      | None => None
                      end
                    else None
                | [] => None
                end
            | None => None
            end
          else None
      | [] => None
      end
  end.

(** [JSON.parse(text)]; [None] stands for the SyntaxError it throws. *)
Definition JSON_parse (text : jsstring) : option value :=
  match JSON_value (2 * List.length text + 2) text with
  | Some (v, rest) => match skip_ws rest with [] => Some v | _ => None end
  | None => None
  end.


(** ** Property access *)

(** The last property named [k] among [ps]. *)
Fixpoint lookup (ps : list (jsstring * value)) (k : jsstring) : option value :=
  match ps with
  | [] => None
  | (k', v) :: rest =>
      match lookup rest k with
      | Some w => Some w
      | None => if str_eqb k' k then Some v else None
      end
  end.

(** [v.k] and [v[0]] (the property named ["0"]), for the property names
    this program reads, none of which a built-in prototype defines.
    [None] stands for the TypeError thrown on [undefined] and [null].
    An array and a string have their elements as own properties. *)
Definition Get (v : value) (k : jsstring) : option value :=
  match v with
  | Undefined | Null => None
  | Object ps => Some (match lookup ps k with Some w => w | None => Undefined end)
  | Array l => Some (if str_eqb k "0" then hd Undefined l else Undefined)
  | String s =>
      Some (if str_eqb k "0"
            then match s with c :: _ => String [c] | [] => Undefined end
            else Undefined)
  | Bool _ | Number _ => Some Undefined
  end.

(** [Array.isArray(v)] *)
Definition isArray (v : value) : bool :=
  match v with Array _ => true | _ => false end.

(** ** Conversion to Number *)

Fixpoint radix_digits (radix : N) (s : jsstring) (acc : N) : option N :=
  match s with
  | [] => Some acc
  | c :: s' =>
      match hex_value c with
      | Some d => if N.ltb d radix then radix_digits radix s' (radix * acc + d)%N else None
      | None => None
      end
  end.

(** [0x], [0o] and [0b] literals: a prefix and one digit or more. *)
Definition StrNonDecimalLiteral (s : jsstring) : option number :=
  match s with
  | z :: p :: (_ :: _) as ds =>
      if N.eqb z (chr "0") then
        let radix :=
          if (N.eqb p (chr "x") || N.eqb p (chr "X"))%bool then Some 16%N
          else if (N.eqb p (chr "o") || N.eqb p (chr "O"))%bool then Some 8%N
          else if (N.eqb p (chr "b") || N.eqb p (chr "B"))%bool then Some 2%N
          else None in
        match radix with
        | Some r =>
            match radix_digits r ds 0 with
            | Some n => Some (number_of_Z (Z.of_N n))
            | None => None
            end
        | None => None
        end
      else None
  | _ => None
  end.

(** A signed decimal literal that takes up all of [s]: [Infinity], or
    digits with an optional fraction and exponent, a digit at least on one
    side of the point. *)
Definition StrDecimalLiteral (s : jsstring) : option number :=
  let '(neg, s1) :=
    match s with
    | c :: s' => if N.eqb c (chr "+") then (false, s')
                 else if N.eqb c (chr "-") then (true, s') else (false, s)
    | [] => (false, s)
    end in
  if str_eqb s1 "Infinity" then Some (S754_infinity neg)
  else
    let '(m, n, s2) := digits s1 0 0 in
    let '(m', n', s3) :=
      match s2 with
      | d :: r => if N.eqb d (chr ".") then digits r m 0 else (m, 0%Z, s2)
      | [] => (m, 0%Z, s2)
      end in
    if (Z.eqb n 0 && Z.eqb n' 0)%bool then None
    else match exponent s3 with
         | Some (e, []) => Some (number_of_decimal neg m' (e - n'))
         | _ => None
         end.

(** StringToNumber: white space is trimmed; the empty string is [+0]; what
    is not a numeric literal is [NaN]. *)
Definition StringToNumber (s : jsstring) : number :=
  match trim s with
  | [] => pos_zero
  | t =>
      match StrNonDecimalLiteral t with
      | Some x => x
      | None => match StrDecimalLiteral t with Some x => x | None => NaN end
      end
  end.

(** ** Conversion to a primitive

    An object that [JSON.parse] built inherits [valueOf] and [toString]
    from [Object.prototype], unless a property of its own has that name,
    and the value of such a property is no function.  The inherited
    [valueOf] returns the object itself, which is no primitive; the
    inherited [toString] returns [[object Object]].  So the conversion of
    such an object to a primitive, to a number as to a string, throws a
    TypeError when the object has an own property named [toString], and
    goes through [[object Object]] otherwise.  An array converts through
    [Array.prototype.join], which converts to a string every element other
    than [undefined] and [null], whatever the number of elements. *)

(** Whether [ps] has a property named [k]. *)
Definition has_own (ps : list (jsstring * value)) (k : jsstring) : bool :=
  match lookup ps k with Some _ => true | None => false end.

(** Whether the conversion of [v] to a primitive returns; it throws a
    TypeError when it does not. *)
Fixpoint converts (v : value) : bool :=
  match v with
  | Object ps => negb (has_own ps "toString")
  | Array l => forallb converts l
  | _ => true
  end.

(** The Number that the conversion of [v] gives when it returns.  An array
    converts through its string form, the join of its elements with commas:
    the empty array gives the empty string; an array of one element gives
    that element's string form, empty for [null] and [undefined], and a
    number's string form converts back to the number (negative zero prints
    as [0]); two elements or more give a string with a comma in it, which
    is no numeric literal.  An object's string form is [[object Object]]. *)
Fixpoint to_number (v : value) : number :=
  match v with
  | Undefined => NaN
  | Null => pos_zero
  | Bool b => if b then one else pos_zero
  | Number x => x
  | String s => StringToNumber s
  | Array [] => pos_zero
  | Array [e] =>
      match e with
      | Undefined | Null => pos_zero
      | Bool _ => NaN
      | Number x => match x with S754_zero _ => pos_zero | _ => x end
      | String s => StringToNumber s
      | Array _ => to_number e
      | Object _ => NaN
      end
  | Array _ => NaN
  | Object _ => NaN
  end.

(** ToNumber; [None] stands for the TypeError. *)
Definition ToNumber (v : value) : option number :=
  if converts v then Some (to_number v) else None.

(** The larger of two numbers: NaN if either is NaN; otherwise they are
    folded from negative infinity, [+0] counting as larger than [-0]. *)
Definition max_step (highest x : number) : number :=
  match highest, x with
  | S754_zero true, S754_zero false => x
  | _, _ => if SFltb highest x then x else highest
  end.

Definition max_of (x y : number) : number :=
  if (is_nan x || is_nan y)%bool then NaN
  else max_step (max_step (S754_infinity true) x) y.

(** [Math.max(a, b)]: both arguments are converted, the first one first;
    [None] stands for the TypeError of a conversion. *)
Definition Math_max (a b : value) : option number :=
  match ToNumber a with
  | Some x => match ToNumber b with Some y => Some (max_of x y) | None => None end
  | None => None
  end.

(** The smaller of two numbers: the same from positive infinity, [-0]
    counting as smaller than [+0]. *)
Definition min_step (lowest x : number) : number :=
  match lowest, x with
  | S754_zero false, S754_zero true => x
  | _, _ => if SFltb x lowest then x else lowest
  end.

Definition min_of (x y : number) : number :=
  if (is_nan x || is_nan y)%bool then NaN
  else min_step (min_step (S754_infinity false) x) y.

(** [Math.min(a, b)] *)
Definition Math_min (a b : value) : option number :=
  match ToNumber a with
  | Some x => match ToNumber b with Some y => Some (min_of x y) | None => None end
  | None => None
  end.


End JS.

(* ===================================================================== *)
(** * The AI service module                                               *)
(* ===================================================================== *)

Module aiService.
Import JS.

(** ** Configuration *)

(** [import.meta.env]: each variable is a string or is undefined. *)
Record Env := {
  VITE_AI_SERVICE : option jsstring;
  VITE_GEMINI_API_KEY : option jsstring;
  VITE_GEMINI_MODEL : option jsstring;
  VITE_OPENAI_API_KEY : option jsstring;
  VITE_OPENAI_MODEL : option jsstring;
  VITE_AZURE_OPENAI_ENDPOINT : option jsstring;
  VITE_AZURE_OPENAI_API_KEY : option jsstring;
  VITE_AZURE_OPENAI_DEPLOYMENT_NAME : option jsstring;
  VITE_ANTHROPIC_API_KEY : option jsstring
}.

(** Truthiness of a string that may be undefined. *)
Definition truthy (o : option jsstring) : bool :=
  match o with Some (_ :: _) => true | _ => false end.

(** [o || d] *)
Definition or_default (o : option jsstring) (d : jsstring) : jsstring :=
  match o with Some (c :: s) => c :: s | _ => d end.

(** [`${o}`] *)
Definition interpolate (o : option jsstring) : jsstring :=
  match o with Some s => s | None => "undefined" end.

Definition AI_SERVICE (env : Env) : jsstring :=
  or_default (VITE_AI_SERVICE env) "gemini".

(** The entries of [AI_CONFIG]; a field an entry does not have reads as
    undefined. *)
Record Config := {
  apiKey : option jsstring;
  model : option jsstring;
  baseURL : option jsstring;
  endpoint : option jsstring;
  deploymentName : option jsstring;
  apiVersion : option jsstring
}.

Definition no_fields : Config :=
  {| apiKey := None; model := None; baseURL := None; endpoint := None;
     deploymentName := None; apiVersion := None |}.

(** The property names every object inherits from [Object.prototype]. *)
Definition inherited_names : list jsstring :=
  [ js "constructor"; js "hasOwnProperty"; js "isPrototypeOf";
    js "propertyIsEnumerable"; js "toLocaleString"; js "toString";
    js "valueOf"; js "__proto__"; js "__defineGetter__";
    js "__defineSetter__"; js "__lookupGetter__"; js "__lookupSetter__" ].

(** [AI_CONFIG[service]]: one of the four entries; for an inherited name a
    built-in object, which is truthy and has none of the fields; undefined
    otherwise. *)
Definition AI_CONFIG (env : Env) (service : jsstring) : option Config :=
  if str_eqb service "gemini" then
    Some {| apiKey := VITE_GEMINI_API_KEY env;
            model := Some (or_default (VITE_GEMINI_MODEL env) "gemini-1.5-flash");
            baseURL := Some (js "https://generativelanguage.googleapis.com/v1beta");
            endpoint := None; deploymentName := None; apiVersion := None |}
  else if str_eqb service "openai" then
    Some {| apiKey := VITE_OPENAI_API_KEY env;
            model := Some (or_default (VITE_OPENAI_MODEL env) "gpt-4");
            baseURL := Some (js "https://api.openai.com/v1");
            endpoint := None; deploymentName := None; apiVersion := None |}
  else if str_eqb service "azure" then
    Some {| apiKey := VITE_AZURE_OPENAI_API_KEY env;
            model := None; baseURL := None;
            endpoint := VITE_AZURE_OPENAI_ENDPOINT env;
            deploymentName := VITE_AZURE_OPENAI_DEPLOYMENT_NAME env;
            apiVersion := Some (js "2024-02-15-preview") |}
  else if str_eqb service "anthropic" then
    Some {| apiKey := VITE_ANTHROPIC_API_KEY env;
            model := Some (js "claude-3-sonnet-20240229");
            baseURL := None; endpoint := None; deploymentName := None;
            apiVersion := None |}
  else if existsb (str_eqb service) inherited_names then Some no_fields
  else None.

(** ** Prompt templates *)

Definition MEDICAL_PROMPT : jsstring := jsq
"You are a medical AI assistant designed to help users understand potential health conditions based on their symptoms. 

IMPORTANT DISCLAIMERS:
- This is for informational purposes only and should not replace professional medical advice
- Always recommend consulting with a healthcare professional
- Do not provide specific medical diagnoses or treatment recommendations
- Focus on general health information and when to seek medical attention

User's symptoms: {symptoms}

Please provide a JSON response with the following structure:
{
  `conditions`: [
    {
      `condition`: `Condition Name`,
      `confidence`: 0.85,
      `urgency`: `low|medium|high`,
      `steps`: [`step1`, `step2`, `step3`, `step4`],
      `description`: `Brief description of the condition`
    }
  ],
  `general_advice`: `General health advice based on symptoms`,
  `when_to_seek_help`: `When to contact a healthcare provider`,
  `disclaimer`: `This information is for educational purposes only and should not replace professional medical advice.`
}

Return only the JSON response, no additional text.".

Definition MEDICAL_PROMPT_WITH_IMAGES : jsstring := jsq
"You are a medical AI assistant designed to help users understand potential health conditions based on their symptoms and visual analysis of uploaded images.

IMPORTANT DISCLAIMERS:
- This is for informational purposes only and should not replace professional medical advice
- Always recommend consulting with a healthcare professional
- Do not provide specific medical diagnoses or treatment recommendations
- Focus on general health information and when to seek medical attention
- Visual analysis is limited and should be confirmed by a healthcare professional

User's symptoms: {symptoms}

Please analyze the uploaded images for visible symptoms, rashes, skin conditions, or other external signs that might be relevant to the described symptoms.

Provide a JSON response with the following structure:
{
  `conditions`: [
    {
      `condition`: `Condition Name`,
      `confidence`: 0.85,
      `urgency`: `low|medium|high`,
      `steps`: [`step1`, `step2`, `step3`, `step4`],
      `description`: `Brief description of the condition`,
      `visual_analysis`: `Analysis of visible symptoms from images`
    }
  ],
  `visual_findings`: `Summary of what was observed in the images`,
  `general_advice`: `General health advice based on symptoms and visual analysis`,
  `when_to_seek_help`: `When to contact a healthcare provider`,
  `disclaimer`: `This information is for educational purposes only and should not replace professional medical advice. Visual analysis is limited and should be confirmed by a healthcare professional.`
}

Return only the JSON response, no additional text.".

(** ** Errors

    One constructor per [throw new Error(...)] of the file, named in the
    comment by its message, and one per error the runtime raises.  An error
    built from another one's [message] keeps it as its cause. *)

Inductive provider := Gemini | OpenAI | AzureOpenAI | Anthropic.

Inductive exn :=
| TypeError      (* a property read on undefined or null; a call of what is no function *)
| SyntaxError    (* JSON.parse and response.json() on what is no JSON text *)
| FetchRejected  (* the TypeError fetch rejects with on a network failure *)
| InvalidService (service : jsstring)
                 (* Invalid AI service: ${AI_SERVICE}. Supported services: ... *)
| ApiKeyNotFound (p : provider)
                 (* Google Gemini / OpenAI / Anthropic API key not found. ... *)
| AzureConfigIncomplete
                 (* Azure OpenAI configuration incomplete. ... *)
| UnsupportedService (service : jsstring)
                 (* Unsupported AI service: ${AI_SERVICE} *)
| ApiError (p : provider) (status : N) (detail : value)
                 (* ... API error: ${response.status} - ${detail} *)
| InvalidGeminiFormat
                 (* Invalid response format from Gemini API *)
| NoJsonFound    (* No JSON found in AI response *)
| InvalidStructure
                 (* Invalid response structure: missing conditions array *)
| ParseFailed (cause : exn)
                 (* Failed to parse AI response: ${error.message} *)
| DiagnosisFailed (cause : exn).
                 (* AI diagnosis failed: ${error.message} *)

(** The outcome of a computation that has no effect but may throw. *)
Inductive completion (A : Type) :=
| Return (a : A)
| Throw (e : exn).
Arguments Return {A} a.
Arguments Throw {A} e.

Definition bind {A B} (m : completion A) (k : A -> completion B) : completion B :=
  match m with Return a => k a | Throw e => Throw e end.

Notation "x <~ m ;; k" := (bind m (fun x => k))
  (at level 61, m at next level, right associativity).

Definition catch {A} (m : completion A) (handler : exn -> completion A) : completion A :=
  match m with Return a => Return a | Throw e => handler e end.

(** [v.k], throwing the TypeError. *)
Definition get (v : value) (k : jsstring) : completion value :=
  match Get v k with Some w => Return w | None => Throw TypeError end.

(** The result of a conversion, throwing the TypeError. *)
Definition converted {A} (o : option A) : completion A :=
  match o with Some a => Return a | None => Throw TypeError end.

(** [a.map(f)] for a callback that may throw. *)
Fixpoint map_throwing {A B} (f : A -> completion B) (a : list A) : completion (list B) :=
  match a with
  | [] => Return []
  | x :: rest =>
      y <~ f x ;;
      ys <~ map_throwing f rest ;;
      Return (y :: ys)
  end.

(** ** The network and the module state

    A request as [fetch] receives it: the URL, the credential header when
    there is one, and of the JSON body the model, the system message, the
    prompt and the inline images.  The generation settings, the same in
    every request, are left out. *)

Record InlineData := { mime_type : jsstring; data : value }.

Record Request := {
  url : jsstring;
  credential : option (jsstring * jsstring);
  body_model : option jsstring;
  system_message : option jsstring;
  prompt_text : jsstring;
  inline_data : list InlineData
}.

(** A response: the status and the body text. *)
Record Response := { status : N; body : jsstring }.

(** [response.ok] *)
Definition ok (r : Response) : bool := (N.leb 200 (status r) && N.leb (status r) 299)%bool.

(** [response.json()] *)
Definition json (r : Response) : completion value :=
  match JSON_parse (body r) with Some v => Return v | None => Throw SyntaxError end.

(** An uploaded image: the file's MIME type and the data URL that the
    FileReader produces, [None] when reading fails. *)
Record Image := { file_type : jsstring; read_result : option jsstring }.

(** An [AIService] object. *)
Record AIService_t := { config : option Config }.

(** What the functions of the module act on: the singleton
    [aiServiceInstance] and the requests sent so far, latest last. *)
Record World := {
  aiServiceInstance : option AIService_t;
  requests : list Request
}.

Definition M (A : Type) : Type := World -> completion A * World.

Definition ret {A} (a : A) : M A := fun w => (Return a, w).

Definition throw {A} (e : exn) : M A := fun w => (Throw e, w).

Definition lift {A} (c : completion A) : M A := fun w => (c, w).

Definition mbind {A B} (m : M A) (k : A -> M B) : M B :=
  fun w => match m w with
           | (Return a, w') => k a w'
           | (Throw e, w') => (Throw e, w')
           end.

Notation "x <- m ;; k" := (mbind m (fun x => k))
  (at level 61, m at next level, right associativity).

(** [try { m } catch (error) { handler }] *)
Definition try_catch {A} (m : M A) (handler : exn -> M A) : M A :=
  fun w => match m w with
           | (Return a, w') => (Return a, w')
           | (Throw e, w') => handler e w'
           end.

(** ** Diagnosis records *)

Record DiagnosisRecord := {
  condition : value;
  confidence : number;
  urgency : value;
  steps : value;
  description : value
}.

(** ** class AIService *)

Module AIService.

(** The literals [0.5] and [0.7]. *)
Definition half : number := Eval cbv in number_of_decimal false 5 (-1).
Definition seven_tenths : number := Eval cbv in number_of_decimal false 7 (-1).

(** The callback of [parsed.conditions.map(...)]: the properties of the
    object literal are evaluated in order; [Math.max] converts
    [condition.confidence || 0.5] to a number, which may throw. *)
Definition normalize (condition : value) : completion DiagnosisRecord :=
  c <~ get condition "condition" ;;
  cf <~ get condition "confidence" ;;
  highest <~ converted (Math_max (or_else cf (Number half)) (Number pos_zero)) ;;
  lowest <~ converted (Math_min (Number highest) (Number one)) ;;
  u <~ get condition "urgency" ;;
  s <~ get condition "steps" ;;
  d <~ get condition "description" ;;
  Return {| condition := c;
            confidence := lowest;
            urgency := or_else u (String "low");
            steps := or_else s (Array []);
            description := or_else d (String "") |}.

Definition parseAIResponse (responseText : value) : completion (list DiagnosisRecord) :=
  catch
    (jsonMatch <~ match responseText with
                  | String text => Return (match_braces text)
                  | _ => Throw TypeError
                  end ;;
     match jsonMatch with
     | None => Throw NoJsonFound
     | Some span =>
         parsed <~ match JSON_parse span with
                   | Some v => Return v
                   | None => Throw SyntaxError
                   end ;;
         conditions <~ get parsed "conditions" ;;
         if (negb (ToBoolean conditions) || negb (isArray conditions))%bool
         then Throw InvalidStructure
         else match conditions with
              | Array elements => map_throwing normalize elements
              | _ => Throw TypeError
              end
     end)
    (fun error => Throw (ParseFailed error)).

(** The error a call throws on a response that is not ok:
    [errorData.error?.message || 'Unknown error'] is read off the body, an
    empty object when the body is no JSON text, and converted to a string
    for the message of the error, which may throw. *)
Definition api_error (p : provider) (r : Response) : exn :=
  let errorData := match JSON_parse (body r) with Some v => v | None => Object [] end in
  match Get errorData "error" with
  | None => TypeError
  | Some err =>
      let message :=
        match err with
        | Undefined | Null => Undefined
        | _ => match Get err "message" with Some m => m | None => Undefined end
        end in
      let detail := or_else message (String "Unknown error") in
      if converts detail then ApiError p (status r) detail else TypeError
  end.

(** [fileToBase64(image.file)]: what lies between the first comma of the
    data URL and the next, undefined when there is no comma; [None] when
    the promise rejects. *)
Definition fileToBase64 (image : Image) : option value :=
  match read_result image with
  | Some result => Some (match split (chr ",") result with
                         | _ :: second :: _ => String second
                         | _ => Undefined
                         end)
  | None => None
  end.

Definition getMockFallback (this : AIService_t) (symptoms : list jsstring)
  : list DiagnosisRecord :=
  [ {| condition := String "General Health Assessment";
       confidence := seven_tenths;
       urgency := String "low";
       steps := Array
         [ String "Monitor your symptoms closely";
           String "Get adequate rest and stay hydrated";
           String "Consider over-the-counter pain relief if appropriate";
           String "Consult a healthcare professional if symptoms worsen or persist" ];
       description := String
         "Based on your symptoms, it's important to monitor your condition and seek professional medical advice." |} ].

Section Host.

Variable env : Env.

(** [fetch]; [None] when the promise rejects. *)
Variable fetch : Request -> option Response.

Definition validateConfig (this : AIService_t) : completion unit :=
  match config this with
  | None => Throw (InvalidService (AI_SERVICE env))
  | Some c =>
      if (str_eqb (AI_SERVICE env) "gemini" && negb (truthy (apiKey c)))%bool
      then Throw (ApiKeyNotFound Gemini)
      else if (str_eqb (AI_SERVICE env) "openai" && negb (truthy (apiKey c)))%bool
      then Throw (ApiKeyNotFound OpenAI)
      else if (str_eqb (AI_SERVICE env) "azure"
               && (negb (truthy (apiKey c)) || negb (truthy (endpoint c))
                   || negb (truthy (deploymentName c))))%bool
      then Throw AzureConfigIncomplete
      else if (str_eqb (AI_SERVICE env) "anthropic" && negb (truthy (apiKey c)))%bool
      then Throw (ApiKeyNotFound Anthropic)
      else Return tt
  end.

(** [new AIService()] *)
Definition new : completion AIService_t :=
  let this := {| config := AI_CONFIG env (AI_SERVICE env) |} in
  _ <~ validateConfig this ;;
  Return this.

(** [await fetch(...)]: the request is recorded as sent. *)
Definition send (r : Request) : M Response :=
  fun w =>
    let w' := {| aiServiceInstance := aiServiceInstance w;
                 requests := requests w ++ [r] |} in
    match fetch r with
    | Some response => (Return response, w')
    | None => (Throw FetchRejected, w')
    end.

(** [this.config], of which a field is about to be read. *)
Definition the_config (this : AIService_t) : M Config :=
  match config this with
  | Some c => ret c
  | None => throw TypeError
  end.

(** The image parts of a Gemini request: an image that cannot be read is
    skipped. *)
Fixpoint image_parts (images : list Image) : list InlineData :=
  match images with
  | [] => []
  | image :: rest =>
      match fileToBase64 image with
      | Some base64 =>
          {| mime_type := file_type image; data := base64 |} :: image_parts rest
      | None => image_parts rest
      end
  end.

Definition system_prompt : jsstring :=
  "You are a helpful medical AI assistant. Always provide responses in valid JSON format as specified in the prompt.".

Definition callGemini (this : AIService_t) (prompt : jsstring) (images : list Image)
  : M (list DiagnosisRecord) :=
  let parts := image_parts images in
  c <- the_config this ;;
  response <- send {| url := interpolate (baseURL c) ++ js "/models/" ++ interpolate (model c)
                             ++ js ":generateContent?key=" ++ interpolate (apiKey c);
                      credential := None;
                      body_model := None;
                      system_message := None;
                      prompt_text := prompt;
                      inline_data := parts |} ;;
  if negb (ok response) then throw (api_error Gemini response)
  else
    data <- lift (json response) ;;
    candidates <- lift (get data "candidates") ;;
    first <- (if ToBoolean candidates then lift (get candidates "0") else ret Undefined) ;;
    content <- (if ToBoolean first then lift (get first "content") else ret Undefined) ;;
    if negb (ToBoolean content) then throw InvalidGeminiFormat
    else
      parts <- lift (get content "parts") ;;
      part <- lift (get parts "0") ;;
      responseText <- lift (get part "text") ;;
      lift (parseAIResponse responseText).

(** The unwrapping shared by the OpenAI and Azure OpenAI calls:
    [data.choices[0].message.content]. *)
Definition choice_content (response : Response) : M (list DiagnosisRecord) :=
  data <- lift (json response) ;;
  choices <- lift (get data "choices") ;;
  choice <- lift (get choices "0") ;;
  message <- lift (get choice "message") ;;
  content <- lift (get message "content") ;;
  lift (parseAIResponse content).

Definition callOpenAI (this : AIService_t) (prompt : jsstring) (images : list Image)
  : M (list DiagnosisRecord) :=
  c <- the_config this ;;
  response <- send {| url := interpolate (baseURL c) ++ js "/chat/completions";
                      credential := Some (js "Authorization",
                                          js "Bearer " ++ interpolate (apiKey c));
                      body_model := model c;
                      system_message := Some system_prompt;
                      prompt_text := prompt;
                      inline_data := [] |} ;;
  if negb (ok response) then throw (api_error OpenAI response)
  else choice_content response.

Definition callAzureOpenAI (this : AIService_t) (prompt : jsstring) (images : list Image)
  : M (list DiagnosisRecord) :=
  c <- the_config this ;;
  response <- send {| url := interpolate (endpoint c) ++ js "/openai/deployments/"
                             ++ interpolate (deploymentName c)
                             ++ js "/chat/completions?api-version="
                             ++ interpolate (apiVersion c);
                      credential := Some (js "api-key", interpolate (apiKey c));
                      body_model := None;
                      system_message := Some system_prompt;
                      prompt_text := prompt;
                      inline_data := [] |} ;;
  if negb (ok response) then throw (api_error AzureOpenAI response)
  else choice_content response.

Definition callAnthropic (this : AIService_t) (prompt : jsstring) (images : list Image)
  : M (list DiagnosisRecord) :=
  c <- the_config this ;;
  response <- send {| url := "https://api.anthropic.com/v1/messages";
                      credential := Some (js "x-api-key", interpolate (apiKey c));
                      body_model := model c;
                      system_message := None;
                      prompt_text := prompt;
                      inline_data := [] |} ;;
  if negb (ok response) then throw (api_error Anthropic response)
  else
    data <- lift (json response) ;;
    content <- lift (get data "content") ;;
    block <- lift (get content "0") ;;
    text <- lift (get block "text") ;;
    lift (parseAIResponse text).

(** The prompt of a request. *)
Definition render (hasImages : bool) (symptoms : list jsstring) : jsstring :=
  if hasImages
  then replace MEDICAL_PROMPT_WITH_IMAGES "{symptoms}" (join ", " symptoms)
  else replace MEDICAL_PROMPT "{symptoms}" (join ", " symptoms).

(** [async diagnose(symptoms, images = [])] *)
Definition diagnose (this : AIService_t) (symptoms : list jsstring) (images : list Image)
  : M (list DiagnosisRecord) :=
  try_catch
    (let hasImages := match images with [] => false | _ :: _ => true end in
     let prompt := render hasImages symptoms in
     if str_eqb (AI_SERVICE env) "gemini"
     then callGemini this prompt (if hasImages then images else [])
     else if str_eqb (AI_SERVICE env) "openai"
     then callOpenAI this prompt (if hasImages then images else [])
     else if str_eqb (AI_SERVICE env) "azure"
     then callAzureOpenAI this prompt (if hasImages then images else [])
     else if str_eqb (AI_SERVICE env) "anthropic"
     then callAnthropic this prompt (if hasImages then images else [])
     else throw (UnsupportedService (AI_SERVICE env)))
    (fun error => throw (DiagnosisFailed error)).

End Host.

End AIService.

(** ** The module's functions *)

Section Host.

Variable env : Env.
Variable fetch : Request -> option Response.

Definition getAIService : M (option AIService_t) :=
  fun w =>
    match aiServiceInstance w with
    | Some instance => (Return (Some instance), w)
    | None =>
        match AIService.new env with
        | Return instance =>
            (Return (Some instance),
             {| aiServiceInstance := Some instance; requests := requests w |})
        | Throw _ => (Return None, w)
        end
    end.

(** [export async function diagnose(symptoms)]: the method is called with
    the symptoms alone, so that its [images] take their default, the empty
    array. *)
Definition diagnose (symptoms : list jsstring) : M (list DiagnosisRecord) :=
  aiService <- getAIService ;;
  match aiService with
  | None =>
      mockService <- lift (AIService.new env) ;;
      ret (AIService.getMockFallback mockService symptoms)
  | Some service =>
      try_catch
        (AIService.diagnose env fetch service symptoms [])
        (fun error =>
           mockService <- lift (AIService.new env) ;;
           ret (AIService.getMockFallback mockService symptoms))
  end.

End Host.

(** The module as loaded: no instance yet, nothing sent. *)
Definition initial : World := {| aiServiceInstance := None; requests := [] |}.

End aiService.

(* ===================================================================== *)
(** * components/SymptomForm.jsx                                          *)
(* ===================================================================== *)

Module SymptomForm.
Import JS.

Definition COMMON_SYMPTOMS : list jsstring :=
  [ js "Fever"; js "Headache"; js "Cough"; js "Sore throat"; js "Fatigue";
    js "Nausea"; js "Stomach pain"; js "Muscle aches"; js "Runny nose";
    js "Shortness of breath"; js "Dizziness"; js "Chest pain" ].

(** The component's state. *)
Record State := {
  freeTextSymptoms : jsstring;
  selectedSymptoms : list jsstring;
  images : list aiService.Image;
  isLoading : bool
}.

(** What a handler does, in order. *)
Inductive effect :=
| preventDefault
| alert (message : jsstring)
| setIsLoading (b : bool)
| onSubmit (symptoms : list jsstring) (images : list aiService.Image).

(** [prev.includes(symptom)] *)
Definition includes (prev : list jsstring) (symptom : jsstring) : bool :=
  existsb (str_eqb symptom) prev.

(** The updater [handleSymptomToggle] hands to [setSelectedSymptoms]. *)
Definition handleSymptomToggle (symptom : jsstring) (prev : list jsstring)
  : list jsstring :=
  if includes prev symptom
  then filter (fun s => negb (str_eqb s symptom)) prev
  else prev ++ [symptom].

(** [Boolean(s)] on a string. *)
Definition non_empty (s : jsstring) : bool :=
  match s with [] => false | _ :: _ => true end.

Definition allSymptoms (st : State) : list jsstring :=
  selectedSymptoms st
  ++ (if non_empty (freeTextSymptoms st)
      then filter non_empty (map trim (split (chr ",") (freeTextSymptoms st)))
      else []).

Section Props.

(** The [onSubmit] prop, as far as the handler sees it: whether the
    promise it returns is fulfilled. *)
Variable onSubmit_fulfils : list jsstring -> list aiService.Image -> bool.

(** [handleSubmit(e)]: what it does, and whether its promise is fulfilled;
    it is rejected when [onSubmit] is, after the [finally] block. *)
Definition handleSubmit (st : State) : list effect * bool :=
  let all := allSymptoms st in
  if Nat.eqb (List.length all) 0 then
    ([preventDefault;
      alert "Please describe your symptoms or select from the list below."],
     true)
  else
    let imgs := match images st with [] => [] | _ :: _ => images st end in
    ([preventDefault; setIsLoading true; onSubmit all imgs; setIsLoading false],
     onSubmit_fulfils all imgs).

End Props.

End SymptomForm.

(* ===================================================================== *)
(** * components/AIConfigStatus.jsx                                       *)
(* ===================================================================== *)

Module AIConfigStatus.
Import JS.
Import aiService.

(** The component's state once the configuration has been checked. *)
Record ConfigStatus := {
  service : jsstring;
  hasApiKey : bool;
  isConfigured : bool;
  error : option jsstring
}.

(** [key !== placeholder] *)
Definition differs (key : option jsstring) (placeholder : jsstring) : bool :=
  match key with
  | Some k => negb (str_eqb k placeholder)
  | None => true
  end.

Definition checkAIConfiguration (env : Env) : ConfigStatus :=
  let service := or_default (VITE_AI_SERVICE env) "gemini" in
  let '(hasApiKey, error) :=
    if str_eqb service "gemini" then
      ((truthy (VITE_GEMINI_API_KEY env)
        && differs (VITE_GEMINI_API_KEY env) "your_gemini_api_key_here")%bool, None)
    else if str_eqb service "openai" then
      ((truthy (VITE_OPENAI_API_KEY env)
        && differs (VITE_OPENAI_API_KEY env) "your_openai_api_key_here")%bool, None)
    else if str_eqb service "azure" then
      ((truthy (VITE_AZURE_OPENAI_API_KEY env)
        && truthy (VITE_AZURE_OPENAI_ENDPOINT env)
        && truthy (VITE_AZURE_OPENAI_DEPLOYMENT_NAME env)
        && differs (VITE_AZURE_OPENAI_API_KEY env) "your_azure_api_key_here")%bool, None)
    else if str_eqb service "anthropic" then
      ((truthy (VITE_ANTHROPIC_API_KEY env)
        && differs (VITE_ANTHROPIC_API_KEY env) "your_anthropic_api_key_here")%bool, None)
    else (false, Some (js "Unknown AI service: " ++ service)) in
  {| service := service;
     hasApiKey := hasApiKey;
     isConfigured := (hasApiKey && negb (truthy error))%bool;
     error := error |}.

End AIConfigStatus.

(* ===================================================================== *)
(** * App.jsx                                                             *)
(* ===================================================================== *)

Module App.
Import JS.

(** The badge variant of a record's urgency; the [switch] compares with
    strict equality, so that only the three strings have a case. *)
Definition getUrgencyColor (urgency : value) : jsstring :=
  match urgency with
  | String s =>
      if str_eqb s "high" then "destructive"
      else if str_eqb s "medium" then "warning"
      else if str_eqb s "low" then "success"
      else "secondary"
  | _ => "secondary"
  end.

End App.


(* ===================================================================== *)
(** * Notions the statements use                                          *)
(* ===================================================================== *)

Import JS.
Import aiService.

(** [x] lies between 0 and 1. *)
Definition in_unit_interval (x : number) : Prop :=
  SFleb pos_zero x = true /\ SFleb x one = true.

(** The confidence [parseAIResponse] computes from the value [v] of an
    element's [confidence] property, [Math.min(Math.max(v || 0.5, 0), 1)],
    when the conversion of [v] returns. *)
Definition confidence_of (v : value) : number :=
  min_of (max_of (to_number (or_else v (Number AIService.half))) pos_zero) one.

(** The confidence as the specification words it:
    [clamp(value ?? 0.5, 0, 1)]. *)
Definition spec_confidence (v : value) : number :=
  min_of (max_of (to_number (nullish_else v (Number AIService.half))) pos_zero) one.

(** The three urgency levels of the data model. *)
Definition urgency_level (v : value) : Prop :=
  v = String "low" \/ v = String "medium" \/ v = String "high".

(** [e.k] for an element [e] that is neither [null] nor [undefined]. *)
Definition field (e : value) (k : jsstring) : value :=
  match Get e k with Some v => v | None => Undefined end.

(** The record [parseAIResponse] makes of such an element, when the
    conversion of its confidence returns. *)
Definition record_of (e : value) : DiagnosisRecord :=
  {| condition := field e "condition";
     confidence := confidence_of (field e "confidence");
     urgency := or_else (field e "urgency") (String "low");
     steps := or_else (field e "steps") (Array []);
     description := or_else (field e "description") (String "") |}.

(** A value as [JSON.parse] builds them: [undefined] occurs nowhere in it. *)
Fixpoint json_data (v : value) : bool :=
  match v with
  | Undefined => false
  | Array l => forallb json_data l
  | Object ps => forallb (fun p => json_data (snd p)) ps
  | _ => true
  end.

(** The call [diagnose(symptoms, images)]: the function declares the
    parameter [symptoms] alone, and a call binds no other argument. *)
Definition diagnose_with_images (env : Env) (fetch : Request -> option Response)
  (symptoms : list jsstring) (images : list Image) : M (list DiagnosisRecord) :=
  diagnose env fetch symptoms.

(** [clamp(x, 0, 1)] on a number that is neither NaN nor a zero. *)
Definition clamp (x : number) : number :=
  if SFltb x pos_zero then pos_zero
  else if SFltb one x then one
  else x.

(** A computation that leaves the module state and the network alone. *)
Definition keeps_world {A} (m : M A) : Prop := forall w, snd (m w) = w.

(** The four services [AIService.diagnose] dispatches on. *)
Definition known_service (service : jsstring) : bool :=
  existsb (str_eqb service) [js "gemini"; js "openai"; js "azure"; js "anthropic"].

(** What a submission carries, in the words of the claim: the selected
    symptoms, then the free text split on commas, each piece trimmed, the
    empty pieces removed. *)
Definition submitted_symptoms (st : SymptomForm.State) : list jsstring :=
  SymptomForm.selectedSymptoms st
  ++ filter SymptomForm.non_empty
       (map trim (split (chr ",") (SymptomForm.freeTextSymptoms st))).

(** ** Sample inputs *)

(** The response text of the specification's example. *)
Definition flu_response : jsstring :=
  jsq "Here is the result: {`conditions`: [{`condition`:`Flu`,`confidence`:1.4,`urgency`:`high`,`steps`:[`rest`]}]} Thanks!".

(** A response without braces. *)
Definition prose_response : jsstring :=
  "I am sorry, I cannot help with that.".

(** A response whose object has no [conditions]. *)
Definition no_conditions_response : jsstring :=
  jsq "Result: {`diagnosis`:`Flu`}".

(** A response whose [conditions] array holds [null]. *)
Definition null_element_response : jsstring :=
  jsq "{`conditions`:[null]}".

(** A response with a confidence that is an object with a [toString]
    property of its own. *)
Definition unconvertible_confidence_response : jsstring :=
  jsq "{`conditions`:[{`condition`:`Flu`,`confidence`:{`toString`:1}}]}".

(** A response with a confidence of zero. *)
Definition zero_confidence_response : jsstring :=
  jsq "{`conditions`:[{`condition`:`Flu`,`confidence`:0}]}".

(** A response with an empty urgency. *)
Definition empty_urgency_response : jsstring :=
  jsq "{`conditions`:[{`condition`:`Flu`,`urgency`:``}]}".

(** A response with a confidence and an urgency outside the data model. *)
Definition off_model_response : jsstring :=
  jsq "{`conditions`:[{`condition`:`Flu`,`confidence`:`high`,`urgency`:`critical`}]}".

(** The inside of the brace span of a response with two conditions. *)
Definition two_conditions : jsstring :=
  jsq "`conditions`:[{`condition`:`Flu`,`confidence`:0.9},{`condition`:`Cold`,`urgency`:`medium`}]".

(** No variable set: the service is Gemini and its key is missing. *)
Definition unconfigured : Env :=
  {| VITE_AI_SERVICE := None;
     VITE_GEMINI_API_KEY := None;
     VITE_GEMINI_MODEL := None;
     VITE_OPENAI_API_KEY := None;
     VITE_OPENAI_MODEL := None;
     VITE_AZURE_OPENAI_ENDPOINT := None;
     VITE_AZURE_OPENAI_API_KEY := None;
     VITE_AZURE_OPENAI_DEPLOYMENT_NAME := None;
     VITE_ANTHROPIC_API_KEY := None |}.

(** Gemini with a key. *)
Definition gemini_configured : Env :=
  {| VITE_AI_SERVICE := None;
     VITE_GEMINI_API_KEY := Some (js "key");
     VITE_GEMINI_MODEL := None;
     VITE_OPENAI_API_KEY := None;
     VITE_OPENAI_MODEL := None;
     VITE_AZURE_OPENAI_ENDPOINT := None;
     VITE_AZURE_OPENAI_API_KEY := None;
     VITE_AZURE_OPENAI_DEPLOYMENT_NAME := None;
     VITE_ANTHROPIC_API_KEY := None |}.

(** A network that is down. *)
Definition offline : Request -> option Response := fun _ => None.

(** A photograph that reads as a data URL. *)
Definition photo : Image :=
  {| file_type := js "image/png";
     read_result := Some (js "data:image/png;base64,iVBORw0KGgo=") |}.

(** A form with one box ticked and two symptoms typed. *)
Definition filled_form : SymptomForm.State :=
  {| SymptomForm.freeTextSymptoms := js " itchy rash , , sneezing";
     SymptomForm.selectedSymptoms := [js "Fever"];
     SymptomForm.images := [photo];
     SymptomForm.isLoading := false |}.

(** A form with nothing ticked and blanks typed. *)
Definition blank_form : SymptomForm.State :=
  {| SymptomForm.freeTextSymptoms := js " , ,";
     SymptomForm.selectedSymptoms := [];
     SymptomForm.images := [];
     SymptomForm.isLoading := false |}.

(** The record of an element that has none of the five properties. *)
Definition default_record : DiagnosisRecord :=
  {| condition := Undefined;
     confidence := AIService.half;
     urgency := String "low";
     steps := Array [];
     description := String "" |}.

(** The property names the normalizer reads off an element. *)
Definition record_properties : list jsstring :=
  [ js "condition"; js "confidence"; js "urgency"; js "steps"; js "description" ].

(** Two elements that differ in a property the normalizer does not read. *)
Definition plain_element : list (jsstring * value) :=
  [ (js "condition", String "Rash"); (js "urgency", String "medium") ].

Definition annotated_element : list (jsstring * value) :=
  [ (js "condition", String "Rash");
    (js "visual_analysis", String "Redness on the forearm");
    (js "urgency", String "medium") ].

(** An image the FileReader can read. *)
Definition readable (image : Image) : bool :=
  match read_result image with Some _ => true | None => false end.

(** The template [AIService.diagnose] picks. *)
Definition template (hasImages : bool) : jsstring :=
  if hasImages then MEDICAL_PROMPT_WITH_IMAGES else MEDICAL_PROMPT.

(** A network on which every call fails: the promise rejects, or the
    response is not ok. *)
Definition failing (fetch : Request -> option Response) : Prop :=
  forall r response, fetch r = Some response -> ok response = false.

(** OpenAI with a key. *)
Definition openai_configured : Env :=
  {| VITE_AI_SERVICE := Some (js "openai");
     VITE_GEMINI_API_KEY := None;
     VITE_GEMINI_MODEL := None;
     VITE_OPENAI_API_KEY := Some (js "sk-key");
     VITE_OPENAI_MODEL := None;
     VITE_AZURE_OPENAI_ENDPOINT := None;
     VITE_AZURE_OPENAI_API_KEY := None;
     VITE_AZURE_OPENAI_DEPLOYMENT_NAME := None;
     VITE_ANTHROPIC_API_KEY := None |}.

(** A photograph that cannot be read. *)
Definition unreadable_photo : Image :=
  {| file_type := js "image/jpeg"; read_result := None |}.

(** A network that answers every request with a server error. *)
Definition server_error : Request -> option Response :=
  fun _ => Some {| status := 503; body := js "Service Unavailable" |}.

(** A Gemini answer without candidates, as for a blocked prompt. *)
Definition blocked_answer : Response :=
  {| status := 200; body := jsq "{`promptFeedback`:{`blockReason`:`SAFETY`}}" |}.

(** A Gemini answer whose text holds one condition. *)
Definition cold_answer : Response :=
  {| status := 200;
     body := jsq "{`candidates`:[{`content`:{`parts`:[{`text`:`{\`conditions\`:[{\`condition\`:\`Cold\`}]}`}]}}]}" |}.



(** A service name that is none of the four and that [AI_CONFIG] still
    answers, with an inherited member. *)
Definition inherited_service_env : Env :=
  {| VITE_AI_SERVICE := Some (js "constructor");
     VITE_GEMINI_API_KEY := None;
     VITE_GEMINI_MODEL := None;
     VITE_OPENAI_API_KEY := None;
     VITE_OPENAI_MODEL := None;
     VITE_AZURE_OPENAI_ENDPOINT := None;
     VITE_AZURE_OPENAI_API_KEY := None;
     VITE_AZURE_OPENAI_DEPLOYMENT_NAME := None;
     VITE_ANTHROPIC_API_KEY := None |}.

(** A chat completion whose message holds one condition. *)
Definition chat_answer : Response :=
  {| status := 200;
     body := jsq "{`choices`:[{`message`:{`role`:`assistant`,`content`:`{\`conditions\`:[{\`condition\`:\`Cold\`}]}`}}]}" |}.

(** An Anthropic message whose first block holds one condition. *)
Definition message_answer : Response :=
  {| status := 200;
     body := jsq "{`content`:[{`type`:`text`,`text`:`{\`conditions\`:[{\`condition\`:\`Cold\`}]}`}]}" |}.



(* ===================================================================== *)
(** * Properties of the runtime functions                                 *)
(* ===================================================================== *)

Lemma str_eqb_refl (s : jsstring) : str_eqb s s = true.
Proof.
  induction s as [|c s IH]; simpl; [reflexivity|].
  now rewrite N.eqb_refl.
Qed.

Lemma str_eqb_eq (a b : jsstring) : str_eqb a b = true <-> a = b.
Proof.
  split; [|intros ->; apply str_eqb_refl].
  revert b; induction a as [|x a IH]; intros [|y b]; simpl; try discriminate; auto.
  intros H. apply andb_prop in H as [Hxy Hab].
  apply N.eqb_eq in Hxy. f_equal; auto.
Qed.

(** A text without opening brace has no match. *)
Lemma match_braces_no_open (text : jsstring) :
  ~ In (chr "{") text -> match_braces text = None.
Proof.
  induction text as [|c text IH]; simpl; intros Hno; [reflexivity|].
  destruct (N.eqb_spec c (chr "{")) as [->|_].
  - exfalso. apply Hno. now left.
  - apply IH. intros Hin. apply Hno. now right.
Qed.

(** A match starts with an opening brace. *)
Lemma match_braces_starts_open (text span : jsstring) :
  match_braces text = Some span -> exists r, span = chr "{" :: r.
Proof.
  induction text as [|c text IH]; simpl; [discriminate|].
  destruct (N.eqb_spec c (chr "{")) as [->|_]; [|exact IH].
  destruct (upto_last_close text) as [p|]; [|exact IH].
  intros [= <-]. now exists p.
Qed.

Lemma upto_last_close_none (s : jsstring) :
  ~ In (chr "}") s -> upto_last_close s = None.
Proof.
  induction s as [|c s IH]; simpl; intros Hno; [reflexivity|].
  rewrite IH by (intros Hin; apply Hno; now right).
  destruct (N.eqb_spec c (chr "}")) as [->|_]; [|reflexivity].
  exfalso. apply Hno. now left.
Qed.

Lemma upto_last_close_app (mid post : jsstring) :
  ~ In (chr "}") post ->
  upto_last_close (mid ++ chr "}" :: post) = Some (mid ++ [chr "}"]).
Proof.
  intros Hno. induction mid as [|c mid IH]; simpl.
  - now rewrite (upto_last_close_none post Hno).
  - now rewrite IH.
Qed.

(** In a text that holds one brace span, with no opening brace before it
    and no closing brace after it, the match is that span. *)
Lemma match_braces_single_span (pre mid post : jsstring) :
  ~ In (chr "{") pre -> ~ In (chr "}") post ->
  match_braces (pre ++ chr "{" :: mid ++ chr "}" :: post)
  = Some (chr "{" :: mid ++ [chr "}"]).
Proof.
  intros Hpre Hpost. induction pre as [|c pre IH]; simpl.
  - now rewrite (upto_last_close_app mid post Hpost).
  - destruct (N.eqb_spec c (chr "{")) as [->|_].
    + exfalso. apply Hpre. now left.
    + apply IH. intros Hin. apply Hpre. now right.
Qed.

(** A text that starts with an opening brace parses to an object, if it
    parses at all. *)
Lemma JSON_parse_brace_object (r : jsstring) (v : value) :
  JSON_parse (chr "{" :: r) = Some v -> exists ps, v = Object ps.
Proof.
  unfold JSON_parse.
  remember (2 * List.length (chr "{" :: r) + 2) as fuel eqn:Hfuel.
  destruct fuel as [|fuel]; [simpl in Hfuel; lia|].
  cbn [JSON_value skip_ws].
  change (N.eqb (chr "{") 9 || N.eqb (chr "{") 10 || N.eqb (chr "{") 13
          || N.eqb (chr "{") 32)%bool with false. cbv iota.
  change (N.eqb (chr "{") DQUOTE) with false.
  change (N.eqb (chr "{") (chr "[")) with false.
  change (N.eqb (chr "{") (chr "{")) with true. cbv iota.
  destruct (skip_ws r) as [|d r']; [discriminate|].
  destruct (N.eqb d (chr "}")).
  - destruct (skip_ws r'); [|discriminate]. intros [= <-]. now eexists.
  - destruct (JSON_members fuel r) as [[ps rest]|]; [|discriminate].
    destruct (skip_ws rest); [|discriminate]. intros [= <-]. now eexists.
Qed.

(* ===================================================================== *)
(** * The response normalizer                                             *)
(* ===================================================================== *)

Lemma get_field (e : value) (k : jsstring) :
  e <> Null -> e <> Undefined -> get e k = Return (field e k).
Proof.
  intros Hnull Hundef. unfold get, field.
  destruct e; try reflexivity; congruence.
Qed.

Lemma get_nullish (e : value) (k : jsstring) :
  e = Null \/ e = Undefined -> get e k = Throw TypeError.
Proof. now intros [-> | ->]. Qed.

(** The default stands in for primitives only, all of which convert. *)
Lemma converts_or_else (v : value) (x : number) :
  converts (or_else v (Number x)) = converts v.
Proof.
  unfold or_else. destruct v as [| |b|y|s|l|ps]; try reflexivity.
  - now destruct b.
  - now destruct y.
  - now destruct s.
Qed.

Lemma Math_max_converts (a : value) (y : number) :
  converts a = true -> Math_max a (Number y) = Some (max_of (to_number a) y).
Proof. intros H. unfold Math_max, ToNumber. now rewrite H. Qed.

Lemma Math_max_throws (a b : value) :
  converts a = false -> Math_max a b = None.
Proof. intros H. unfold Math_max, ToNumber. now rewrite H. Qed.

(** On an element that is neither [null] nor [undefined] and whose
    confidence converts, the callback returns, and what it returns is
    [record_of]. *)
Lemma normalize_record_of (e : value) :
  e <> Null -> e <> Undefined -> converts (field e "confidence") = true ->
  AIService.normalize e = Return (record_of e).
Proof.
  intros Hnull Hundef Hconv. unfold AIService.normalize.
  rewrite !get_field by assumption. cbn [bind].
  rewrite Math_max_converts by now rewrite converts_or_else.
  reflexivity.
Qed.

(** On an element whose confidence does not convert it throws. *)
Lemma normalize_unconvertible (e : value) :
  e <> Null -> e <> Undefined -> converts (field e "confidence") = false ->
  AIService.normalize e = Throw TypeError.
Proof.
  intros Hnull Hundef Hconv. unfold AIService.normalize.
  rewrite !get_field by assumption. cbn [bind].
  rewrite Math_max_throws by now rewrite converts_or_else.
  reflexivity.
Qed.

(** On [null] and [undefined] it throws. *)
Lemma normalize_nullish (e : value) :
  e = Null \/ e = Undefined -> AIService.normalize e = Throw TypeError.
Proof.
  intros H. unfold AIService.normalize. now rewrite get_nullish.
Qed.

Lemma normalize_inv (e : value) (r : DiagnosisRecord) :
  AIService.normalize e = Return r ->
  r = record_of e /\ e <> Null /\ e <> Undefined /\
  converts (field e "confidence") = true.
Proof.
  intros H.
  assert (Hcases : (e = Null \/ e = Undefined) \/ (e <> Null /\ e <> Undefined)).
  { destruct e; try (right; split; discriminate); left; auto. }
  destruct Hcases as [Hn | [Hnull Hundef]].
  - rewrite normalize_nullish in H by assumption. discriminate.
  - destruct (converts (field e "confidence")) eqn:Hconv.
    + rewrite normalize_record_of in H by assumption.
      injection H as <-. auto.
    + rewrite normalize_unconvertible in H by assumption. discriminate.
Qed.

Lemma map_throwing_all {A B} (f : A -> completion B) (g : A -> B) (a : list A) :
  Forall (fun x => f x = Return (g x)) a ->
  map_throwing f a = Return (map g a).
Proof.
  induction 1 as [|x a Hx _ IH]; simpl; [reflexivity|].
  now rewrite Hx, IH.
Qed.

Lemma map_throwing_inv {A B} (f : A -> completion B) (a : list A) (b : list B) :
  map_throwing f a = Return b -> Forall2 (fun x y => f x = Return y) a b.
Proof.
  revert b. induction a as [|x a IH]; simpl; intros b H.
  - injection H as <-. constructor.
  - destruct (f x) as [y|] eqn:Hy; [|discriminate]. simpl in H.
    destruct (map_throwing f a) as [ys|] eqn:Hys; [|discriminate]. simpl in H.
    injection H as <-. constructor; auto.
Qed.

(** What [parseAIResponse] does once the match has parsed to an object
    whose [conditions] is an array: it maps the callback over the array. *)
Lemma parseAIResponse_conditions (text span : jsstring)
  (ps : list (jsstring * value)) (elements : list value) :
  match_braces text = Some span ->
  JSON_parse span = Some (Object ps) ->
  lookup ps "conditions" = Some (Array elements) ->
  AIService.parseAIResponse (String text)
  = catch (map_throwing AIService.normalize elements) (fun error => Throw (ParseFailed error)).
Proof.
  intros Hmatch Hparse Hlookup. unfold AIService.parseAIResponse.
  cbn [bind]. rewrite Hmatch, Hparse. cbn [bind].
  unfold get. cbn [Get]. rewrite Hlookup. reflexivity.
Qed.

(** When [parseAIResponse] returns, the text has a match, the match parses
    to an object whose [conditions] is an array, and the records are the
    callback's results on its elements. *)
Lemma parseAIResponse_inv (text : jsstring) (records : list DiagnosisRecord) :
  AIService.parseAIResponse (String text) = Return records ->
  exists span ps elements,
    match_braces text = Some span /\
    JSON_parse span = Some (Object ps) /\
    lookup ps "conditions" = Some (Array elements) /\
    Forall2 (fun e r => AIService.normalize e = Return r) elements records.
Proof.
  unfold AIService.parseAIResponse. cbn [bind].
  destruct (match_braces text) as [span|] eqn:Hmatch; [|discriminate].
  destruct (match_braces_starts_open _ _ Hmatch) as [rest ->].
  destruct (JSON_parse (chr "{" :: rest)) as [parsed|] eqn:Hparse; [|discriminate].
  destruct (JSON_parse_brace_object _ _ Hparse) as [ps ->].
  cbn [bind]. unfold get. cbn [Get bind].
  destruct (lookup ps "conditions") as [conditions|] eqn:Hlookup; [|discriminate].
  destruct conditions as [| | | | |elements|];
    try (cbn [isArray negb]; rewrite orb_true_r; discriminate).
  cbn [ToBoolean isArray negb orb].
  destruct (map_throwing AIService.normalize elements) as [rs|] eqn:Hmap; [|discriminate].
  intros [= <-]. exists (chr "{" :: rest), ps, elements.
  repeat split; auto. now apply map_throwing_inv.
Qed.

Lemma not_In_existsb (c : N) (s : jsstring) :
  existsb (N.eqb c) s = false -> ~ In c s.
Proof.
  intros H Hin. assert (Ht : existsb (N.eqb c) s = true).
  { apply existsb_exists. exists c. split; [assumption|apply N.eqb_refl]. }
  congruence.
Qed.

Ltac break_match :=
  match goal with
  | |- context [match ?x with _ => _ end] => destruct x eqn:?
  end.

(** The parser builds values in which [undefined] does not occur. *)
Lemma JSON_fuel_json_data (fuel : nat) :
  (forall s v r, JSON_value fuel s = Some (v, r) -> json_data v = true) /\
  (forall s vs r, JSON_elements fuel s = Some (vs, r) -> forallb json_data vs = true) /\
  (forall s ps r, JSON_members fuel s = Some (ps, r) ->
                  forallb (fun p => json_data (snd p)) ps = true).
Proof.
  induction fuel as [|fuel (IHv & IHe & IHm)].
  - repeat split; intros; discriminate.
  - repeat split.
    + intros s v r. cbn [JSON_value].
      repeat break_match; try discriminate; intros [= <- <-]; cbn [json_data]; eauto.
    + intros s vs r. cbn [JSON_elements].
      repeat break_match; try discriminate; intros [= <- <-]; cbn [forallb];
        apply andb_true_intro; split; eauto.
    + intros s ps r. cbn [JSON_members].
      repeat break_match; try discriminate; intros [= <- <-]; cbn [forallb snd];
        apply andb_true_intro; split; eauto.
Qed.

Lemma JSON_parse_json_data (text : jsstring) (v : value) :
  JSON_parse text = Some v -> json_data v = true.
Proof.
  unfold JSON_parse.
  destruct (JSON_value _ text) as [[w rest]|] eqn:Hv; [|discriminate].
  destruct (skip_ws rest); [|discriminate]. intros [= <-].
  eapply (proj1 (JSON_fuel_json_data _)); eauto.
Qed.

Lemma lookup_json_data (ps : list (jsstring * value)) (k : jsstring) (v : value) :
  forallb (fun p => json_data (snd p)) ps = true ->
  lookup ps k = Some v -> json_data v = true.
Proof.
  induction ps as [|[k' w] ps IH]; simpl; [discriminate|].
  intros Hall. apply andb_prop in Hall as [Hw Hps].
  destruct (lookup ps k) as [u|] eqn:Hu.
  - intros [= <-]. now apply IH.
  - destruct (str_eqb k' k); [|discriminate]. now intros [= <-].
Qed.

Lemma json_data_defined (l : list value) :
  forallb json_data l = true -> Forall (fun e => e <> Undefined) l.
Proof.
  induction l as [|e l IH]; simpl; intros H; constructor.
  - apply andb_prop in H as [He _]. intros ->. discriminate.
  - apply IH. now apply andb_prop in H as [_ Hl].
Qed.

(** C6. Normalizing the example text of the specification yields exactly
    one record: condition "Flu", confidence 1, urgency "high", steps
    ["rest"] and the empty description. *)
Theorem flu_response_normalized :
  AIService.parseAIResponse (String flu_response)
  = Return [ {| condition := String "Flu";
                confidence := one;
                urgency := String "high";
                steps := Array [String "rest"];
                description := String "" |} ].
Proof. vm_compute. reflexivity. Qed.

(** C8. On a response text that contains neither an opening nor a closing
    brace the normalizer fails with the error "No JSON found in AI
    response", wrapped as a parse failure; it returns no records. *)
Theorem no_braces_no_json_found (text : jsstring) :
  ~ In (chr "{") text -> ~ In (chr "}") text ->
  AIService.parseAIResponse (String text) = Throw (ParseFailed NoJsonFound).
Proof.
  intros Hopen _. unfold AIService.parseAIResponse. cbn [bind].
  now rewrite (match_braces_no_open text Hopen).
Qed.

Lemma no_braces_no_json_found_witness :
  (~ In (chr "{") prose_response /\ ~ In (chr "}") prose_response) /\
  AIService.parseAIResponse (String prose_response) = Throw (ParseFailed NoJsonFound).
Proof.
  assert (Hopen : ~ In (chr "{") prose_response)
    by (apply not_In_existsb; vm_compute; reflexivity).
  assert (Hclose : ~ In (chr "}") prose_response)
    by (apply not_In_existsb; vm_compute; reflexivity).
  split; [split; assumption|].
  exact (no_braces_no_json_found prose_response Hopen Hclose).
Defined.

(** C9. When the matched brace span parses as JSON and the parsed object
    has no [conditions] property, or has one that is not an array, the
    normalizer fails with the error "Invalid response structure: missing
    conditions array", wrapped as a parse failure. *)
Theorem missing_conditions_invalid_structure
  (text span : jsstring) (parsed : value) :
  match_braces text = Some span ->
  JSON_parse span = Some parsed ->
  (forall ps, parsed = Object ps ->
     lookup ps "conditions" = None \/
     exists v, lookup ps "conditions" = Some v /\ isArray v = false) ->
  AIService.parseAIResponse (String text) = Throw (ParseFailed InvalidStructure).
Proof.
  intros Hmatch Hparse Hshape.
  destruct (match_braces_starts_open _ _ Hmatch) as [rest ->].
  destruct (JSON_parse_brace_object _ _ Hparse) as [ps ->].
  unfold AIService.parseAIResponse. cbn [bind]. rewrite Hmatch, Hparse.
  cbn [bind]. unfold get. cbn [Get bind].
  destruct (Hshape ps eq_refl) as [Hnone | (v & Hsome & Hnot)].
  - rewrite Hnone. reflexivity.
  - rewrite Hsome, Hnot. cbn [negb]. rewrite orb_true_r. reflexivity.
Qed.

Lemma missing_conditions_invalid_structure_witness :
  AIService.parseAIResponse (String no_conditions_response)
  = Throw (ParseFailed InvalidStructure).
Proof.
  apply (missing_conditions_invalid_structure no_conditions_response
           (jsq "{`diagnosis`:`Flu`}")
           (Object [(js "diagnosis", String "Flu")])).
  - vm_compute. reflexivity.
  - vm_compute. reflexivity.
  - intros ps [= <-]. left. vm_compute. reflexivity.
Defined.

(* ===================================================================== *)
(** * Comparison and clamping of numbers                                  *)
(* ===================================================================== *)

Lemma compare_cont_swap (p q : positive) :
  PosDef.Pos.compare_cont Eq q p = CompOpp (PosDef.Pos.compare_cont Eq p q).
Proof.
  change (Pos.compare_cont Eq q p = CompOpp (Pos.compare_cont Eq p q)).
  now rewrite Pos.compare_cont_antisym.
Qed.

Lemma SFcompare_swap (x y : number) :
  SFcompare y x = match SFcompare x y with Some c => Some (CompOpp c) | None => None end.
Proof.
  destruct x as [sx|sx| |sx mx ex], y as [sy|sy| |sy my ey]; simpl; try reflexivity;
    try (destruct sx; reflexivity); try (destruct sy; reflexivity);
    try (destruct sx, sy; reflexivity).
  destruct sx, sy; try reflexivity; f_equal;
    rewrite (Z.compare_antisym ex ey); destruct (ex ?= ey)%Z; simpl; try reflexivity.
  - now rewrite (compare_cont_swap mx my).
  - apply compare_cont_swap.
Qed.

(** Of two numbers, neither NaN, one is below the other or at most it. *)
Lemma SFltb_false_SFleb (x y : number) :
  is_nan x = false -> is_nan y = false -> SFltb y x = false -> SFleb x y = true.
Proof.
  unfold SFltb, SFleb. rewrite (SFcompare_swap x y).
  destruct (SFcompare x y) as [[]|] eqn:Hc; simpl; try reflexivity; try discriminate.
  destruct x, y; simpl in *; discriminate.
Qed.

Lemma max_step_from_below (x : number) :
  is_nan x = false -> max_step (S754_infinity true) x = x.
Proof. destruct x as [s|s| |s m e]; try discriminate; destruct s; reflexivity. Qed.

Lemma min_step_from_above (x : number) :
  is_nan x = false -> min_step (S754_infinity false) x = x.
Proof. destruct x as [s|s| |s m e]; try discriminate; destruct s; reflexivity. Qed.

Lemma max_of_zero (x : number) :
  is_nan x = false -> max_of x pos_zero = max_step x pos_zero.
Proof.
  intros Hx. unfold max_of. rewrite Hx.
  cbn [is_nan pos_zero orb]. now rewrite max_step_from_below.
Qed.

Lemma min_of_one (y : number) :
  is_nan y = false -> min_of y one = min_step y one.
Proof.
  intros Hy. unfold min_of. rewrite Hy.
  cbn [is_nan one orb]. now rewrite min_step_from_above.
Qed.

Lemma max_of_nan (x : number) :
  is_nan x = true -> min_of (max_of x pos_zero) one = NaN.
Proof. intros H. unfold min_of, max_of. rewrite H. reflexivity. Qed.

(** The clamping arithmetic on a number that is not NaN ends between 0
    and 1. *)
Lemma clamp_in_unit_interval (x : number) :
  is_nan x = false ->
  in_unit_interval (min_of (max_of x pos_zero) one).
Proof.
  intros Hx. destruct x as [s|s| |s m e]; try discriminate.
  - destruct s; split; reflexivity.
  - destruct s; split; reflexivity.
  - destruct s; [split; reflexivity|].
    rewrite max_of_zero by reflexivity.
    change (max_step (S754_finite false m e) pos_zero) with (S754_finite false m e).
    rewrite min_of_one by reflexivity.
    change (min_step (S754_finite false m e) one)
      with (if SFltb one (S754_finite false m e) then one else S754_finite false m e).
    destruct (SFltb one (S754_finite false m e)) eqn:Hlt.
    + split; reflexivity.
    + split; [reflexivity|]. now apply SFltb_false_SFleb.
Qed.

(** Whatever the value, the confidence computed from it is NaN or lies
    between 0 and 1. *)
Lemma confidence_of_range (v : value) :
  is_nan (confidence_of v) = true \/ in_unit_interval (confidence_of v).
Proof.
  unfold confidence_of.
  destruct (is_nan (to_number (or_else v (Number AIService.half)))) eqn:Hnan.
  - left. now rewrite max_of_nan.
  - right. now apply clamp_in_unit_interval.
Qed.

(** A falsy value gives the default. *)
Lemma confidence_of_falsy (v : value) :
  ToBoolean v = false -> confidence_of v = AIService.half.
Proof.
  intros H. unfold confidence_of, or_else. rewrite H. vm_compute. reflexivity.
Qed.

(** A number that is neither a zero nor NaN is clamped. *)
Lemma confidence_of_number (x : number) :
  ToBoolean (Number x) = true ->
  confidence_of (Number x) = clamp x /\ in_unit_interval (confidence_of (Number x)).
Proof.
  intros H. assert (Hnan : is_nan x = false) by (destruct x; try reflexivity; discriminate).
  split.
  - unfold confidence_of, or_else. rewrite H. cbn [to_number].
    destruct x as [s|s| |s m e]; try discriminate.
    + destruct s; reflexivity.
    + destruct s; [reflexivity|].
      rewrite max_of_zero by reflexivity.
      change (max_step (S754_finite false m e) pos_zero) with (S754_finite false m e).
      rewrite min_of_one by reflexivity. reflexivity.
  - unfold confidence_of, or_else. rewrite H. now apply clamp_in_unit_interval.
Qed.

(* ===================================================================== *)
(** * The records of a response                                           *)
(* ===================================================================== *)

(** When [parseAIResponse] returns, each record is [record_of] the element
    at its place in the parsed [conditions] array. *)
Lemma parseAIResponse_records (text : jsstring) (records : list DiagnosisRecord) :
  AIService.parseAIResponse (String text) = Return records ->
  exists span ps elements,
    match_braces text = Some span /\
    JSON_parse span = Some (Object ps) /\
    lookup ps "conditions" = Some (Array elements) /\
    Forall2 (fun e r => r = record_of e) elements records.
Proof.
  intros H. destruct (parseAIResponse_inv _ _ H) as (span & ps & elements & Hm & Hp & Hl & Hall).
  exists span, ps, elements. repeat split; auto.
  eapply Forall2_impl; [|exact Hall].
  intros e r Hn. now apply normalize_inv in Hn.
Qed.

(** C7, as stated, fails: a [conditions] array that holds [null], or an
    object whose confidence is an object with a [toString] property of its
    own, is well-formed JSON, and the normalizer throws on it instead of
    returning a record for the element. *)
Lemma elements_rejected :
  (match_braces null_element_response = Some null_element_response /\
   JSON_parse null_element_response = Some (Object [(js "conditions", Array [Null])]) /\
   AIService.parseAIResponse (String null_element_response) = Throw (ParseFailed TypeError) /\
   ~ (exists records,
        AIService.parseAIResponse (String null_element_response) = Return records /\
        List.length records = 1)) /\
  (match_braces unconvertible_confidence_response = Some unconvertible_confidence_response /\
   JSON_parse unconvertible_confidence_response
   = Some (Object [(js "conditions",
                    Array [Object [(js "condition", String "Flu");
                                   (js "confidence",
                                    Object [(js "toString", Number one)])]])]) /\
   AIService.parseAIResponse (String unconvertible_confidence_response)
   = Throw (ParseFailed TypeError) /\
   ~ (exists records,
        AIService.parseAIResponse (String unconvertible_confidence_response)
        = Return records /\
        List.length records = 1)).
Proof.
  assert (H : AIService.parseAIResponse (String null_element_response)
              = Throw (ParseFailed TypeError)) by (vm_compute; reflexivity).
  assert (H' : AIService.parseAIResponse (String unconvertible_confidence_response)
               = Throw (ParseFailed TypeError)) by (vm_compute; reflexivity).
  repeat split; try (vm_compute; reflexivity).
  - intros (records & Hr & _). rewrite H in Hr. discriminate.
  - intros (records & Hr & _). rewrite H' in Hr. discriminate.
Qed.

(** C7, amended. For a response text that holds one brace span, with no
    opening brace before it and no closing brace after it, where the span
    is a well-formed JSON object whose [conditions] is an array without
    [null] element and in which the confidence of every element converts
    to a number (it is no object with a [toString] property of its own, and
    no array that holds one), the normalizer returns one record per element
    of the array, in the order of the array. *)
Theorem one_record_per_element
  (pre mid post : jsstring) (ps : list (jsstring * value)) (elements : list value) :
  ~ In (chr "{") pre -> ~ In (chr "}") post ->
  JSON_parse (chr "{" :: mid ++ [chr "}"]) = Some (Object ps) ->
  lookup ps "conditions" = Some (Array elements) ->
  Forall (fun e => e <> Null) elements ->
  Forall (fun e => converts (field e "confidence") = true) elements ->
  AIService.parseAIResponse (String (pre ++ chr "{" :: mid ++ chr "}" :: post))
  = Return (map record_of elements).
Proof.
  intros Hpre Hpost Hparse Hlookup Hnonnull Hconverts.
  rewrite (parseAIResponse_conditions _ _ ps elements
             (match_braces_single_span pre mid post Hpre Hpost) Hparse Hlookup).
  assert (Hdefined : Forall (fun e => e <> Undefined) elements).
  { apply json_data_defined.
    apply JSON_parse_json_data in Hparse. cbn [json_data] in Hparse.
    exact (lookup_json_data ps "conditions" (Array elements) Hparse Hlookup). }
  rewrite (map_throwing_all AIService.normalize record_of); [reflexivity|].
  rewrite Forall_forall in *. intros e He.
  apply normalize_record_of; auto.
Qed.

Lemma one_record_per_element_witness :
  AIService.parseAIResponse
    (String (js "Result: " ++ chr "{" :: two_conditions ++ chr "}" :: js " Thanks!"))
  = Return (map record_of
              [ Object [(js "condition", String "Flu");
                        (js "confidence", Number (number_of_decimal false 9 (-1)))];
                Object [(js "condition", String "Cold");
                        (js "urgency", String "medium")] ]).
Proof.
  apply (one_record_per_element (js "Result: ") two_conditions (js " Thanks!")
           [(js "conditions",
             Array [ Object [(js "condition", String "Flu");
                             (js "confidence", Number (number_of_decimal false 9 (-1)))];
                     Object [(js "condition", String "Cold");
                             (js "urgency", String "medium")] ])]).
  - apply not_In_existsb. vm_compute. reflexivity.
  - apply not_In_existsb. vm_compute. reflexivity.
  - vm_compute. reflexivity.
  - vm_compute. reflexivity.
  - repeat constructor; discriminate.
  - repeat constructor.
Defined.

(** C2, as stated, fails: a confidence of 0 is present and numeric, the
    specification's [clamp(0 ?? 0.5, 0, 1)] is 0, and the normalizer gives
    0.5. *)
Lemma zero_confidence_defaulted :
  JSON_parse zero_confidence_response
  = Some (Object [(js "conditions",
                   Array [Object [(js "condition", String "Flu");
                                  (js "confidence", Number pos_zero)]])]) /\
  AIService.parseAIResponse (String zero_confidence_response)
  = Return [ {| condition := String "Flu";
                confidence := AIService.half;
                urgency := String "low";
                steps := Array [];
                description := String "" |} ] /\
  spec_confidence (Number pos_zero) = pos_zero /\
  AIService.half <> spec_confidence (Number pos_zero).
Proof.
  repeat split; try (vm_compute; reflexivity).
  vm_compute. discriminate.
Qed.

(** C2, amended. For every element of the parsed [conditions] array the
    output confidence is [clamp(value || 0.5, 0, 1)]: a confidence that is
    missing, null, zero or otherwise falsy gives 0.5, and any other numeric
    confidence is clamped between 0 and 1. *)
Theorem confidence_clamped_or_defaulted
  (text : jsstring) (records : list DiagnosisRecord) :
  AIService.parseAIResponse (String text) = Return records ->
  exists span ps elements,
    match_braces text = Some span /\
    JSON_parse span = Some (Object ps) /\
    lookup ps "conditions" = Some (Array elements) /\
    Forall2 (fun e r =>
               confidence r = confidence_of (field e "confidence") /\
               (ToBoolean (field e "confidence") = false ->
                confidence r = AIService.half) /\
               (forall x, field e "confidence" = Number x ->
                          ToBoolean (Number x) = true ->
                          confidence r = clamp x /\ in_unit_interval (confidence r)))
            elements records.
Proof.
  intros H. destruct (parseAIResponse_records _ _ H) as (span & ps & elements & Hm & Hp & Hl & Hall).
  exists span, ps, elements. repeat split; auto.
  eapply Forall2_impl; [|exact Hall].
  intros e r ->. cbn [record_of confidence]. split; [reflexivity|split].
  - apply confidence_of_falsy.
  - intros x Hx Htruthy. rewrite Hx. now apply confidence_of_number.
Qed.

Lemma confidence_clamped_or_defaulted_witness :
  exists span ps elements,
    match_braces flu_response = Some span /\
    JSON_parse span = Some (Object ps) /\
    lookup ps "conditions" = Some (Array elements) /\
    Forall2 (fun e r =>
               confidence r = confidence_of (field e "confidence") /\
               (ToBoolean (field e "confidence") = false ->
                confidence r = AIService.half) /\
               (forall x, field e "confidence" = Number x ->
                          ToBoolean (Number x) = true ->
                          confidence r = clamp x /\ in_unit_interval (confidence r)))
            elements
            [ {| condition := String "Flu";
                 confidence := one;
                 urgency := String "high";
                 steps := Array [String "rest"];
                 description := String "" |} ].
Proof.
  apply (confidence_clamped_or_defaulted flu_response).
  vm_compute. reflexivity.
Defined.

Lemma urgency_level_truthy (v : value) : urgency_level v -> ToBoolean v = true.
Proof. intros [-> | [-> | ->]]; reflexivity. Qed.

Lemma half_in_unit_interval : in_unit_interval AIService.half.
Proof. split; reflexivity. Qed.

(** C4, as stated, fails: for a confidence that is no number and an
    urgency outside the three levels, the record has the confidence NaN
    and keeps the urgency as it came. *)
Lemma off_model_record :
  AIService.parseAIResponse (String off_model_response)
  = Return [ {| condition := String "Flu";
                confidence := NaN;
                urgency := String "critical";
                steps := Array [];
                description := String "" |} ] /\
  ~ in_unit_interval NaN /\
  ~ urgency_level (String "critical").
Proof.
  split; [vm_compute; reflexivity|]. split.
  - intros [H _]. vm_compute in H. discriminate.
  - intros [H | [H | H]]; vm_compute in H; discriminate.
Qed.

(** C4, amended. Every record the normalizer produces has a confidence
    that is NaN or lies between 0 and 1, and that lies between 0 and 1
    whenever the element's confidence is absent, null or a number; its
    urgency is "low" when the element's urgency is absent or otherwise
    falsy and is the element's urgency, unchanged and unchecked, when that
    is truthy, hence one of the three levels when the element's is. *)
Theorem record_confidence_and_urgency
  (text : jsstring) (records : list DiagnosisRecord) :
  AIService.parseAIResponse (String text) = Return records ->
  exists span ps elements,
    match_braces text = Some span /\
    JSON_parse span = Some (Object ps) /\
    lookup ps "conditions" = Some (Array elements) /\
    Forall2 (fun e r =>
               (is_nan (confidence r) = true \/ in_unit_interval (confidence r)) /\
               (field e "confidence" = Undefined \/ field e "confidence" = Null \/
                (exists x, field e "confidence" = Number x /\ is_nan x = false) ->
                in_unit_interval (confidence r)) /\
               (ToBoolean (field e "urgency") = false -> urgency r = String "low") /\
               (ToBoolean (field e "urgency") = true -> urgency r = field e "urgency") /\
               (urgency_level (field e "urgency") -> urgency_level (urgency r)))
            elements records.
Proof.
  intros H. destruct (parseAIResponse_records _ _ H) as (span & ps & elements & Hm & Hp & Hl & Hall).
  exists span, ps, elements. repeat split; auto.
  eapply Forall2_impl; [|exact Hall].
  intros e r ->. cbn [record_of confidence urgency].
  split; [apply confidence_of_range|]. split; [|split; [|split]].
  - intros [Hc | [Hc | (x & Hc & Hx)]].
    + rewrite Hc, confidence_of_falsy by reflexivity. apply half_in_unit_interval.
    + rewrite Hc, confidence_of_falsy by reflexivity. apply half_in_unit_interval.
    + rewrite Hc. destruct (ToBoolean (Number x)) eqn:Ht.
      * now apply confidence_of_number.
      * rewrite confidence_of_falsy by assumption. apply half_in_unit_interval.
  - intros Hf. unfold or_else. now rewrite Hf.
  - intros Ht. unfold or_else. now rewrite Ht.
  - intros Hlevel. unfold or_else.
    now rewrite (urgency_level_truthy _ Hlevel).
Qed.

Lemma record_confidence_and_urgency_witness :
  exists span ps elements,
    match_braces off_model_response = Some span /\
    JSON_parse span = Some (Object ps) /\
    lookup ps "conditions" = Some (Array elements) /\
    Forall2 (fun e r =>
               (is_nan (confidence r) = true \/ in_unit_interval (confidence r)) /\
               (field e "confidence" = Undefined \/ field e "confidence" = Null \/
                (exists x, field e "confidence" = Number x /\ is_nan x = false) ->
                in_unit_interval (confidence r)) /\
               (ToBoolean (field e "urgency") = false -> urgency r = String "low") /\
               (ToBoolean (field e "urgency") = true -> urgency r = field e "urgency") /\
               (urgency_level (field e "urgency") -> urgency_level (urgency r)))
            elements
            [ {| condition := String "Flu";
                 confidence := NaN;
                 urgency := String "critical";
                 steps := Array [];
                 description := String "" |} ].
Proof.
  apply (record_confidence_and_urgency off_model_response).
  vm_compute. reflexivity.
Defined.

(** C5, as stated, fails: an urgency that is present and is the empty
    string does not pass through, the record's urgency is "low". *)
Lemma empty_urgency_replaced :
  JSON_parse empty_urgency_response
  = Some (Object [(js "conditions",
                   Array [Object [(js "condition", String "Flu");
                                  (js "urgency", String "")]])]) /\
  AIService.parseAIResponse (String empty_urgency_response)
  = Return [ {| condition := String "Flu";
                confidence := AIService.half;
                urgency := String "low";
                steps := Array [];
                description := String "" |} ] /\
  String "low" <> String "".
Proof.
  repeat split; try (vm_compute; reflexivity).
  intros H. vm_compute in H. discriminate.
Qed.

(** C5, amended. For every element of the parsed [conditions] array, an
    urgency that is missing or otherwise falsy (null, the empty string,
    zero, false) yields "low", and any other urgency, an unrecognized
    string included, passes to the record unchanged. *)
Theorem urgency_defaulted_or_passed
  (text : jsstring) (records : list DiagnosisRecord) :
  AIService.parseAIResponse (String text) = Return records ->
  exists span ps elements,
    match_braces text = Some span /\
    JSON_parse span = Some (Object ps) /\
    lookup ps "conditions" = Some (Array elements) /\
    Forall2 (fun e r =>
               (field e "urgency" = Undefined -> urgency r = String "low") /\
               (ToBoolean (field e "urgency") = false -> urgency r = String "low") /\
               (ToBoolean (field e "urgency") = true -> urgency r = field e "urgency"))
            elements records.
Proof.
  intros H. destruct (parseAIResponse_records _ _ H) as (span & ps & elements & Hm & Hp & Hl & Hall).
  exists span, ps, elements. repeat split; auto.
  eapply Forall2_impl; [|exact Hall].
  intros e r ->. cbn [record_of urgency]. unfold or_else. split; [|split].
  - now intros ->.
  - now intros ->.
  - now intros ->.
Qed.

Lemma urgency_defaulted_or_passed_witness :
  exists span ps elements,
    match_braces empty_urgency_response = Some span /\
    JSON_parse span = Some (Object ps) /\
    lookup ps "conditions" = Some (Array elements) /\
    Forall2 (fun e r =>
               (field e "urgency" = Undefined -> urgency r = String "low") /\
               (ToBoolean (field e "urgency") = false -> urgency r = String "low") /\
               (ToBoolean (field e "urgency") = true -> urgency r = field e "urgency"))
            elements
            [ {| condition := String "Flu";
                 confidence := AIService.half;
                 urgency := String "low";
                 steps := Array [];
                 description := String "" |} ].
Proof.
  apply (urgency_defaulted_or_passed empty_urgency_response).
  vm_compute. reflexivity.
Defined.

(* ===================================================================== *)
(** * The provider calls and the diagnosis entry point                    *)
(* ===================================================================== *)

Lemma keeps_ret {A} (a : A) : keeps_world (ret a).
Proof. now intros w. Qed.

Lemma keeps_throw {A} (e : exn) : keeps_world (@throw A e).
Proof. now intros w. Qed.

Lemma keeps_lift {A} (c : completion A) : keeps_world (lift c).
Proof. now intros w. Qed.

Lemma keeps_mbind {A B} (m : M A) (k : A -> M B) :
  keeps_world m -> (forall a, keeps_world (k a)) -> keeps_world (mbind m k).
Proof.
  intros Hm Hk w. unfold mbind. specialize (Hm w).
  destruct (m w) as [[a|e] w']; simpl in *; subst; [apply Hk|reflexivity].
Qed.

Lemma keeps_if {A} (b : bool) (m1 m2 : M A) :
  keeps_world m1 -> keeps_world m2 -> keeps_world (if b then m1 else m2).
Proof. now destruct b. Qed.

Ltac keeps :=
  repeat first
    [ apply keeps_ret | apply keeps_throw | apply keeps_lift
    | apply keeps_if | (apply keeps_mbind; [|intros ?]) ].

(** A request and what follows it, when that sends nothing more: one
    request is added to those sent. *)
Lemma requests_send {A} (fetch : Request -> option Response) (r : Request)
  (k : Response -> M A) (w : World) :
  (forall response, keeps_world (k response)) ->
  requests (snd (mbind (AIService.send fetch r) k w)) = requests w ++ [r].
Proof.
  intros Hk. unfold mbind, AIService.send.
  destruct (fetch r) as [response|]; [|reflexivity].
  now rewrite Hk.
Qed.

Lemma snd_try_catch {A} (m : M A) (handler : exn -> M A) (w : World) :
  (forall e, keeps_world (handler e)) ->
  snd (try_catch m handler w) = snd (m w).
Proof.
  intros Hh. unfold try_catch. destruct (m w) as [[a|e] w']; [reflexivity|].
  now rewrite Hh.
Qed.

Section Calls.

Variable env : Env.
Variable fetch : Request -> option Response.
Variable this : AIService_t.
Variable c : Config.
Hypothesis Hconfig : config this = Some c.

Lemma callGemini_prompt (prompt : jsstring) (images : list Image) (w : World) :
  map prompt_text (requests (snd (AIService.callGemini fetch this prompt images w)))
  = map prompt_text (requests w) ++ [prompt].
Proof.
  unfold AIService.callGemini, AIService.the_config. rewrite Hconfig.
  unfold mbind at 1. cbn [ret].
  rewrite requests_send by (intros response; keeps).
  now rewrite map_app.
Qed.

Lemma callOpenAI_prompt (prompt : jsstring) (images : list Image) (w : World) :
  map prompt_text (requests (snd (AIService.callOpenAI fetch this prompt images w)))
  = map prompt_text (requests w) ++ [prompt].
Proof.
  unfold AIService.callOpenAI, AIService.the_config. rewrite Hconfig.
  unfold mbind at 1. cbn [ret].
  rewrite requests_send by (intros response; unfold AIService.choice_content; keeps).
  now rewrite map_app.
Qed.

Lemma callAzureOpenAI_prompt (prompt : jsstring) (images : list Image) (w : World) :
  map prompt_text (requests (snd (AIService.callAzureOpenAI fetch this prompt images w)))
  = map prompt_text (requests w) ++ [prompt].
Proof.
  unfold AIService.callAzureOpenAI, AIService.the_config. rewrite Hconfig.
  unfold mbind at 1. cbn [ret].
  rewrite requests_send by (intros response; unfold AIService.choice_content; keeps).
  now rewrite map_app.
Qed.

Lemma callAnthropic_prompt (prompt : jsstring) (images : list Image) (w : World) :
  map prompt_text (requests (snd (AIService.callAnthropic fetch this prompt images w)))
  = map prompt_text (requests w) ++ [prompt].
Proof.
  unfold AIService.callAnthropic, AIService.the_config. rewrite Hconfig.
  unfold mbind at 1. cbn [ret].
  rewrite requests_send by (intros response; keeps).
  now rewrite map_app.
Qed.

(** The method sends one request, and its prompt is the image-aware
    template when there are images and the text-only template when there
    are none, with the joined symptoms as the replacement text. *)
Lemma AIService_diagnose_prompt (symptoms : list jsstring) (images : list Image) (w : World) :
  known_service (AI_SERVICE env) = true ->
  map prompt_text (requests (snd (AIService.diagnose env fetch this symptoms images w)))
  = map prompt_text (requests w)
    ++ [AIService.render (match images with [] => false | _ :: _ => true end) symptoms].
Proof.
  intros Hknown. unfold AIService.diagnose.
  rewrite snd_try_catch by (intros e; keeps).
  unfold known_service in Hknown. cbn [existsb] in Hknown.
  destruct (str_eqb (AI_SERVICE env) "gemini"); [apply callGemini_prompt|].
  destruct (str_eqb (AI_SERVICE env) "openai"); [apply callOpenAI_prompt|].
  destruct (str_eqb (AI_SERVICE env) "azure"); [apply callAzureOpenAI_prompt|].
  destruct (str_eqb (AI_SERVICE env) "anthropic"); [apply callAnthropic_prompt|].
  discriminate.
Qed.

End Calls.

Section EntryPoint.

Variable env : Env.
Variable fetch : Request -> option Response.

(** The service [diagnose] works with: the singleton when there is one,
    a new instance otherwise. *)
Lemma getAIService_new (w : World) (service : AIService_t) :
  aiServiceInstance w = None ->
  AIService.new env = Return service ->
  getAIService env w
  = (Return (Some service),
     {| aiServiceInstance := Some service; requests := requests w |}).
Proof. intros Hnone Hnew. unfold getAIService. now rewrite Hnone, Hnew. Qed.

Lemma getAIService_unavailable (w : World) (e : exn) :
  aiServiceInstance w = None ->
  AIService.new env = Throw e ->
  getAIService env w = (Return None, w).
Proof. intros Hnone Hnew. unfold getAIService. now rewrite Hnone, Hnew. Qed.

(** When the constructor throws, so does [diagnose]: the branch meant to
    serve the mock data constructs an [AIService] again, and the
    constructor throws again. *)
Lemma diagnose_constructor_throws (symptoms : list jsstring) (w : World) (e : exn) :
  aiServiceInstance w = None ->
  AIService.new env = Throw e ->
  diagnose env fetch symptoms w = (Throw e, w).
Proof.
  intros Hnone Hnew. unfold diagnose, mbind.
  rewrite (getAIService_unavailable w e Hnone Hnew).
  unfold lift. now rewrite Hnew.
Qed.

(** When the constructor returns, [diagnose] returns: the provider's
    records when the method returns them, the mock record when the method
    throws, whatever it throws. *)
Lemma diagnose_configured (symptoms : list jsstring) (w : World) (service : AIService_t) :
  aiServiceInstance w = None ->
  AIService.new env = Return service ->
  fst (diagnose env fetch symptoms w)
  = match fst (AIService.diagnose env fetch service symptoms []
                 {| aiServiceInstance := Some service; requests := requests w |}) with
    | Return records => Return records
    | Throw _ => Return (AIService.getMockFallback service symptoms)
    end.
Proof.
  intros Hnone Hnew. unfold diagnose, mbind at 1.
  rewrite (getAIService_new w service Hnone Hnew).
  unfold try_catch.
  destruct (AIService.diagnose env fetch service symptoms [] _) as [[records|e] w'];
    [reflexivity|].
  unfold mbind, lift. now rewrite Hnew.
Qed.

(** The request [diagnose] sends carries the text-only prompt. *)
Lemma diagnose_prompt (symptoms : list jsstring) (w : World) (service : AIService_t) :
  aiServiceInstance w = None ->
  AIService.new env = Return service ->
  known_service (AI_SERVICE env) = true ->
  map prompt_text (requests (snd (diagnose env fetch symptoms w)))
  = map prompt_text (requests w) ++ [AIService.render false symptoms].
Proof.
  intros Hnone Hnew Hknown. unfold diagnose, mbind at 1.
  rewrite (getAIService_new w service Hnone Hnew).
  rewrite snd_try_catch by (intros e; keeps).
  assert (Hconfig : exists c, config service = Some c).
  { unfold AIService.new in Hnew.
    destruct (AIService.validateConfig env _) as [[]|] eqn:Hvalid; [|discriminate].
    injection Hnew as <-. cbn [config] in *.
    unfold AIService.validateConfig in Hvalid. cbn [config] in Hvalid.
    destruct (AI_CONFIG env (AI_SERVICE env)) as [c|]; [now exists c|discriminate]. }
  destruct Hconfig as [c Hc].
  now rewrite (AIService_diagnose_prompt env fetch service c Hc symptoms [] _ Hknown).
Qed.

End EntryPoint.

(** C1. With no API key configured the top-level [diagnose] does not
    return the fallback records: it throws the configuration error
    "Google Gemini API key not found" to its caller, whatever the network
    and the symptoms. *)
Theorem unconfigured_diagnose_throws
  (fetch : Request -> option Response) (symptoms : list jsstring) :
  diagnose unconfigured fetch symptoms initial = (Throw (ApiKeyNotFound Gemini), initial).
Proof.
  apply diagnose_constructor_throws; reflexivity.
Qed.

(** The half of C1 that holds: with a key configured and the network
    down, [diagnose] returns the one mock record. *)
Lemma offline_diagnose_falls_back (symptoms : list jsstring) :
  fst (diagnose gemini_configured offline symptoms initial)
  = Return (AIService.getMockFallback
              {| config := AI_CONFIG gemini_configured "gemini" |} symptoms).
Proof.
  rewrite (diagnose_configured gemini_configured offline symptoms initial
             {| config := AI_CONFIG gemini_configured "gemini" |})
    by reflexivity.
  reflexivity.
Qed.

Lemma templates_differ :
  AIService.render false [js "Fever"] <> AIService.render true [js "Fever"].
Proof.
  intros H. apply str_eqb_eq in H. vm_compute in H. discriminate.
Qed.

(** C3. A request with a photograph, handed to the top-level [diagnose],
    reaches the provider with the text-only prompt, not the image-aware
    one: [diagnose] passes the symptoms alone to the method. *)
Theorem diagnose_with_images_text_only (fetch : Request -> option Response) :
  map prompt_text
      (requests (snd (diagnose_with_images gemini_configured fetch [js "Fever"] [photo] initial)))
  = [AIService.render false [js "Fever"]]
  /\ AIService.render false [js "Fever"] <> AIService.render true [js "Fever"].
Proof.
  split; [|apply templates_differ].
  unfold diagnose_with_images.
  now rewrite (diagnose_prompt gemini_configured fetch [js "Fever"] initial
                 {| config := AI_CONFIG gemini_configured "gemini" |}).
Qed.

(** The replacement text is subject to the [$] patterns of [replace]: the
    symptom [$&] renders as the placeholder itself. *)
Lemma render_dollar_ampersand :
  AIService.render false [js "$&"] = MEDICAL_PROMPT.
Proof. vm_compute. reflexivity. Qed.

(* ===================================================================== *)
(** * The symptom form                                                    *)
(* ===================================================================== *)

(** The guard on the free text changes nothing: the empty text splits
    into one empty piece, which is removed. *)
Lemma allSymptoms_submitted (st : SymptomForm.State) :
  SymptomForm.allSymptoms st = submitted_symptoms st.
Proof.
  unfold SymptomForm.allSymptoms, submitted_symptoms.
  destruct (SymptomForm.freeTextSymptoms st) as [|c s]; reflexivity.
Qed.

Lemma images_kept (imgs : list Image) :
  match imgs with [] => [] | _ :: _ => imgs end = imgs.
Proof. now destruct imgs. Qed.

(** C10. Whenever [handleSubmit] invokes [onSubmit], the symptom list it
    hands over is the selected symptoms followed by the free text split on
    commas, trimmed, without the empty pieces, and that list is not empty;
    when the list is empty the handler alerts and does not invoke
    [onSubmit]; when it is not empty the handler does invoke it. *)
Theorem handleSubmit_symptoms
  (onSubmit_fulfils : list jsstring -> list Image -> bool) (st : SymptomForm.State) :
  (forall symptoms imgs,
      In (SymptomForm.onSubmit symptoms imgs)
         (fst (SymptomForm.handleSubmit onSubmit_fulfils st)) ->
      symptoms = submitted_symptoms st /\ symptoms <> []) /\
  (submitted_symptoms st = [] ->
   fst (SymptomForm.handleSubmit onSubmit_fulfils st)
   = [SymptomForm.preventDefault;
      SymptomForm.alert "Please describe your symptoms or select from the list below."]) /\
  (submitted_symptoms st <> [] ->
   fst (SymptomForm.handleSubmit onSubmit_fulfils st)
   = [SymptomForm.preventDefault;
      SymptomForm.setIsLoading true;
      SymptomForm.onSubmit (submitted_symptoms st) (SymptomForm.images st);
      SymptomForm.setIsLoading false]).
Proof.
  unfold SymptomForm.handleSubmit. rewrite allSymptoms_submitted, images_kept.
  destruct (submitted_symptoms st) as [|s rest] eqn:Hall; cbn [List.length Nat.eqb fst].
  - split; [|split].
    + intros symptoms imgs [H | [H | []]]; discriminate.
    + reflexivity.
    + intros H. now contradiction H.
  - split; [|split].
    + intros symptoms imgs [H | [H | [H | [H | []]]]]; try discriminate.
      injection H as <- _. split; [reflexivity|discriminate].
    + discriminate.
    + reflexivity.
Qed.

Lemma handleSubmit_symptoms_witness :
  fst (SymptomForm.handleSubmit (fun _ _ => true) filled_form)
  = [SymptomForm.preventDefault;
     SymptomForm.setIsLoading true;
     SymptomForm.onSubmit [js "Fever"; js "itchy rash"; js "sneezing"] [photo];
     SymptomForm.setIsLoading false]
  /\
  fst (SymptomForm.handleSubmit (fun _ _ => true) blank_form)
  = [SymptomForm.preventDefault;
     SymptomForm.alert "Please describe your symptoms or select from the list below."].
Proof.
  split.
  - apply (proj2 (proj2 (handleSubmit_symptoms (fun _ _ => true) filled_form))).
    vm_compute. discriminate.
  - apply (proj1 (proj2 (handleSubmit_symptoms (fun _ _ => true) blank_form))).
    vm_compute. reflexivity.
Defined.

(* ===================================================================== *)
(** * Further properties: the brace match and the normalizer              *)
(* ===================================================================== *)

Lemma upto_last_close_none_inv (s : jsstring) :
  upto_last_close s = None -> ~ In (chr "}") s.
Proof.
  induction s as [|c s IH]; simpl; [tauto|].
  destruct (upto_last_close s) as [p|]; [discriminate|].
  destruct (N.eqb_spec c (chr "}")) as [->|Hne]; [discriminate|].
  intros _ [Hc | Hin]; [congruence|]. now apply IH.
Qed.

Lemma upto_last_close_some (s p : jsstring) :
  upto_last_close s = Some p ->
  exists mid post, p = mid ++ [chr "}"] /\ s = p ++ post /\ ~ In (chr "}") post.
Proof.
  revert p. induction s as [|c s IH]; simpl; intros p; [discriminate|].
  destruct (upto_last_close s) as [p'|] eqn:Hs.
  - intros [= <-]. destruct (IH p' eq_refl) as (mid & post & -> & Hs' & Hpost).
    exists (c :: mid), post. repeat split; auto. simpl. now rewrite <- Hs'.
  - destruct (N.eqb_spec c (chr "}")) as [->|Hne]; [|discriminate].
    intros [= <-]. exists [], s. repeat split; auto.
    now apply upto_last_close_none_inv.
Qed.

Lemma match_braces_no_close (s : jsstring) :
  ~ In (chr "}") s -> match_braces s = None.
Proof.
  induction s as [|c s IH]; simpl; intros Hno; [reflexivity|].
  assert (Hs : ~ In (chr "}") s) by (intros Hin; apply Hno; now right).
  rewrite (upto_last_close_none s Hs), (IH Hs). now destruct (N.eqb c (chr "{")).
Qed.

(** A match is a part of the text that starts at its first opening brace
    and ends at its last closing brace. *)
Lemma match_braces_decompose (text span : jsstring) :
  match_braces text = Some span ->
  exists pre mid post,
    text = pre ++ span ++ post /\
    span = chr "{" :: mid ++ [chr "}"] /\
    ~ In (chr "{") pre /\ ~ In (chr "}") post.
Proof.
  revert span. induction text as [|c text IH]; simpl; intros span; [discriminate|].
  destruct (N.eqb_spec c (chr "{")) as [->|Hne].
  - destruct (upto_last_close text) as [p|] eqn:Hp.
    + intros [= <-]. destruct (upto_last_close_some _ _ Hp) as (mid & post & -> & Ht & Hpost).
      exists [], mid, post. repeat split; auto. simpl. now rewrite <- Ht.
    + intros Hm. apply upto_last_close_none_inv in Hp.
      rewrite (match_braces_no_close text Hp) in Hm. discriminate.
  - intros Hm. destruct (IH span Hm) as (pre & mid & post & -> & Hspan & Hpre & Hpost).
    exists (c :: pre), mid, post. repeat split; auto.
    intros [Hc | Hin]; [congruence|]. now apply Hpre.
Qed.

(** X1. The match of [/\{[\s\S]*\}/] is the part of the text from its
    first opening brace to its last closing brace: a text has the match
    [span] exactly when it is [pre ++ span ++ post] where [span] starts
    with an opening brace and ends with a closing one, [pre] has no opening
    brace and [post] no closing brace. *)
Theorem match_braces_first_to_last (text span : jsstring) :
  match_braces text = Some span <->
  exists pre mid post,
    text = pre ++ span ++ post /\
    span = chr "{" :: mid ++ [chr "}"] /\
    ~ In (chr "{") pre /\ ~ In (chr "}") post.
Proof.
  split; [apply match_braces_decompose|].
  intros (pre & mid & post & -> & -> & Hpre & Hpost).
  replace ((chr "{" :: mid ++ [chr "}"]) ++ post)
    with (chr "{" :: mid ++ chr "}" :: post)
    by (simpl; now rewrite <- app_assoc).
  now apply match_braces_single_span.
Qed.

Lemma match_braces_some_of_braces (pre mid post : jsstring) :
  match_braces (pre ++ chr "{" :: mid ++ chr "}" :: post) <> None.
Proof.
  assert (Hclose : forall s, In (chr "}") s -> upto_last_close s <> None).
  { intros s Hin Hnone. now apply (upto_last_close_none_inv s Hnone). }
  induction pre as [|c pre IH]; simpl.
  - destruct (upto_last_close (mid ++ chr "}" :: post)) eqn:Hu; [discriminate|].
    exfalso. apply (Hclose _ (in_elt (chr "}") mid post)). exact Hu.
  - destruct (N.eqb c (chr "{")); [|exact IH].
    destruct (upto_last_close (pre ++ chr "{" :: mid ++ chr "}" :: post)) eqn:Hu;
      [discriminate|exact IH].
Qed.

Lemma normalize_throws_TypeError (e : value) (err : exn) :
  AIService.normalize e = Throw err -> err = TypeError.
Proof.
  assert (Hcases : (e = Null \/ e = Undefined) \/ (e <> Null /\ e <> Undefined)).
  { destruct e; try (right; split; discriminate); left; auto. }
  destruct Hcases as [Hn | [Hnull Hundef]].
  - rewrite normalize_nullish by assumption. now intros [= <-].
  - destruct (converts (field e "confidence")) eqn:Hconv.
    + rewrite normalize_record_of by assumption. discriminate.
    + rewrite normalize_unconvertible by assumption. now intros [= <-].
Qed.

Lemma map_normalize_throws_TypeError (elements : list value) (err : exn) :
  map_throwing AIService.normalize elements = Throw err -> err = TypeError.
Proof.
  induction elements as [|e elements IH]; simpl; [discriminate|].
  destruct (AIService.normalize e) as [r|err'] eqn:He; simpl.
  - destruct (map_throwing AIService.normalize elements) as [rs|err'']; simpl;
      [discriminate|]. intros [= <-]. now apply IH.
  - intros [= <-]. now apply normalize_throws_TypeError in He.
Qed.

(** Once the text has a match, the normalizer returns or fails with one of
    three causes; "No JSON found" is not among them. *)
Lemma parseAIResponse_matched (text span : jsstring) :
  match_braces text = Some span ->
  (exists records, AIService.parseAIResponse (String text) = Return records) \/
  AIService.parseAIResponse (String text) = Throw (ParseFailed SyntaxError) \/
  AIService.parseAIResponse (String text) = Throw (ParseFailed InvalidStructure) \/
  AIService.parseAIResponse (String text) = Throw (ParseFailed TypeError).
Proof.
  intros Hmatch. destruct (match_braces_starts_open _ _ Hmatch) as [rest ->].
  unfold AIService.parseAIResponse. cbn [bind]. rewrite Hmatch.
  destruct (JSON_parse (chr "{" :: rest)) as [parsed|] eqn:Hparse; [|now right; left].
  destruct (JSON_parse_brace_object _ _ Hparse) as [ps ->].
  cbn [bind]. unfold get. cbn [Get bind].
  destruct (lookup ps "conditions") as [conditions|]; [|now right; right; left].
  destruct conditions as [| | | | |elements|];
    try (cbn [isArray negb]; rewrite orb_true_r; now right; right; left).
  cbn [ToBoolean isArray negb orb].
  destruct (map_throwing AIService.normalize elements) as [rs|err] eqn:Hmap.
  - left. now exists rs.
  - apply map_normalize_throws_TypeError in Hmap as ->. now right; right; right.
Qed.

(** X2. The normalizer fails with "No JSON found in AI response" exactly
    on the texts in which no opening brace is followed, anywhere later, by
    a closing brace. *)
Theorem no_json_found_iff (text : jsstring) :
  AIService.parseAIResponse (String text) = Throw (ParseFailed NoJsonFound) <->
  ~ exists pre mid post, text = pre ++ chr "{" :: mid ++ chr "}" :: post.
Proof.
  split.
  - intros Hfail (pre & mid & post & ->).
    destruct (match_braces (pre ++ chr "{" :: mid ++ chr "}" :: post)) as [span|] eqn:Hm.
    + destruct (parseAIResponse_matched _ _ Hm) as [[rs H] | [H | [H | H]]];
        rewrite H in Hfail; discriminate.
    + now apply (match_braces_some_of_braces pre mid post).
  - intros Hno. unfold AIService.parseAIResponse. cbn [bind].
    destruct (match_braces text) as [span|] eqn:Hm; [|reflexivity].
    exfalso. apply Hno.
    apply match_braces_decompose in Hm as (pre & mid & post & -> & -> & _ & _).
    exists pre, mid, post. simpl. now rewrite <- app_assoc.
Qed.

(** X3. Whatever value it is given, the normalizer throws nothing but a
    parse failure, and the cause is one of four: no JSON found, a syntax
    error of [JSON.parse], an invalid structure, or a TypeError. *)
Theorem parseAIResponse_error_kinds (responseText : value) (e : exn) :
  AIService.parseAIResponse responseText = Throw e ->
  e = ParseFailed NoJsonFound \/ e = ParseFailed SyntaxError \/
  e = ParseFailed InvalidStructure \/ e = ParseFailed TypeError.
Proof.
  destruct responseText as [| | | |text| |];
    try (intros [= <-]; now right; right; right).
  destruct (match_braces text) as [span|] eqn:Hm.
  - destruct (parseAIResponse_matched _ _ Hm) as [[rs H] | [H | [H | H]]];
      rewrite H; intros [= <-]; auto.
  - unfold AIService.parseAIResponse. cbn [bind]. rewrite Hm.
    intros [= <-]. now left.
Qed.

Lemma parseAIResponse_error_kinds_witness :
  ParseFailed InvalidStructure = ParseFailed NoJsonFound \/
  ParseFailed InvalidStructure = ParseFailed SyntaxError \/
  ParseFailed InvalidStructure = ParseFailed InvalidStructure \/
  ParseFailed InvalidStructure = ParseFailed TypeError.
Proof.
  apply (parseAIResponse_error_kinds (String no_conditions_response)).
  vm_compute. reflexivity.
Defined.

Lemma Forall2_record_of (elements : list value) (records : list DiagnosisRecord) :
  Forall2 (fun e r => AIService.normalize e = Return r) elements records ->
  Forall (fun e => e <> Null) elements /\
  Forall (fun e => converts (field e "confidence") = true) elements /\
  records = map record_of elements.
Proof.
  induction 1 as [|e r elements records He _ (IHn & IHc & IHr)];
    [split; [constructor|split; [constructor|reflexivity]]|].
  apply normalize_inv in He as (-> & Hnull & _ & Hconv).
  split; [now constructor|]. split; [now constructor|]. simpl. now rewrite IHr.
Qed.

(** X4. The normalizer returns records exactly when the text has a brace
    match that parses to an object whose [conditions] is an array without
    [null] element in which the confidence of every element converts to a
    number, and the records are then those of the elements, one each and
    in order. *)
Theorem parseAIResponse_returns_iff (text : jsstring) (records : list DiagnosisRecord) :
  AIService.parseAIResponse (String text) = Return records <->
  exists span ps elements,
    match_braces text = Some span /\
    JSON_parse span = Some (Object ps) /\
    lookup ps "conditions" = Some (Array elements) /\
    Forall (fun e => e <> Null) elements /\
    Forall (fun e => converts (field e "confidence") = true) elements /\
    records = map record_of elements.
Proof.
  split.
  - intros H. destruct (parseAIResponse_inv _ _ H)
      as (span & ps & elements & Hm & Hp & Hl & Hall).
    destruct (Forall2_record_of _ _ Hall) as (Hnonnull & Hconverts & Hrecords).
    exists span, ps, elements. repeat split; auto.
  - intros (span & ps & elements & Hm & Hp & Hl & Hnonnull & Hconverts & ->).
    rewrite (parseAIResponse_conditions _ _ ps elements Hm Hp Hl).
    assert (Hdefined : Forall (fun e => e <> Undefined) elements).
    { apply json_data_defined.
      apply JSON_parse_json_data in Hp. cbn [json_data] in Hp.
      exact (lookup_json_data ps "conditions" (Array elements) Hp Hl). }
    rewrite (map_throwing_all AIService.normalize record_of); [reflexivity|].
    rewrite Forall_forall in *. intros e He. apply normalize_record_of; auto.
Qed.

(** X5. An element that is a boolean, a number, a string or an array has
    none of the properties the normalizer reads: its record is the default
    one, with an undefined condition, confidence 0.5, urgency "low", no
    steps and an empty description. *)
Theorem normalize_non_object (e : value) :
  e <> Null -> e <> Undefined -> (forall ps, e <> Object ps) ->
  AIService.normalize e = Return default_record.
Proof.
  intros Hnull Hundef Hobj.
  destruct e as [| |b|x|s|l|ps]; try congruence; reflexivity.
Qed.

Lemma normalize_non_object_witness :
  AIService.normalize (Array [String "Flu"]) = Return default_record.
Proof.
  apply (normalize_non_object (Array [String "Flu"])); intros; discriminate.
Defined.

(** X6. The record of an object depends on the five properties
    [condition], [confidence], [urgency], [steps] and [description] alone:
    two objects that agree on them have the same record, so that any other
    property of an element, [visual_analysis] included, is dropped. *)
Theorem normalize_reads_five_properties (ps1 ps2 : list (jsstring * value)) :
  (forall k, In k record_properties -> lookup ps1 k = lookup ps2 k) ->
  AIService.normalize (Object ps1) = AIService.normalize (Object ps2).
Proof.
  intros Hagree.
  unfold AIService.normalize, get. cbn [Get].
  rewrite (Hagree "condition"), (Hagree "confidence"), (Hagree "urgency"),
    (Hagree "steps"), (Hagree "description");
    [reflexivity| | | | |]; unfold record_properties; simpl; auto 6.
Qed.

Lemma normalize_reads_five_properties_witness :
  AIService.normalize (Object plain_element)
  = AIService.normalize (Object annotated_element).
Proof.
  apply (normalize_reads_five_properties plain_element annotated_element).
  intros k [<- | [<- | [<- | [<- | [<- | []]]]]]; vm_compute; reflexivity.
Defined.

(* ===================================================================== *)
(** * Further properties: prompts, requests and images                    *)
(* ===================================================================== *)

Lemma strip_prefix_sound (p s after : jsstring) :
  strip_prefix p s = Some after -> s = p ++ after.
Proof.
  revert s. induction p as [|x p IH]; intros [|y s]; simpl; try discriminate.
  - now intros [= <-].
  - now intros [= <-].
  - destruct (N.eqb_spec x y) as [->|_]; [|discriminate].
    intros H. now rewrite (IH s H).
Qed.

Lemma find_sound (p s before after : jsstring) :
  find p s = Some (before, after) -> s = before ++ p ++ after.
Proof.
  revert before. induction s as [|c s IH]; intros before; simpl.
  - destruct (strip_prefix p []) as [a|] eqn:Hp; [|discriminate].
    intros [= <- <-]. now apply strip_prefix_sound in Hp.
  - destruct (strip_prefix p (c :: s)) as [a|] eqn:Hp.
    + intros [= <- <-]. now apply strip_prefix_sound in Hp.
    + destruct (find p s) as [[b a]|]; [|discriminate].
      intros [= <- <-]. simpl. now rewrite <- (IH b eq_refl).
Qed.

Lemma GetSubstitution_plain (matched before after repl : jsstring) :
  ~ In (chr "$") repl -> GetSubstitution matched before after repl = repl.
Proof.
  induction repl as [|c repl IH]; simpl; intros Hno; [reflexivity|].
  destruct (N.eqb_spec c (chr "$")) as [->|_].
  - exfalso. apply Hno. now left.
  - rewrite IH; [reflexivity|]. intros Hin. apply Hno. now right.
Qed.

(** X7. When the joined symptoms hold no dollar sign they are interpolated
    as they are: the template splits around its placeholder
    [{symptoms}], and the prompt is what precedes the placeholder, the
    symptoms joined with a comma and a space, and what follows it. *)
Theorem render_interpolates (hasImages : bool) (symptoms : list jsstring) :
  ~ In (chr "$") (join ", " symptoms) ->
  exists before after,
    template hasImages = before ++ js "{symptoms}" ++ after /\
    AIService.render hasImages symptoms = before ++ join ", " symptoms ++ after.
Proof.
  intros Hplain. unfold AIService.render, template, replace.
  destruct hasImages.
  - destruct (find "{symptoms}" MEDICAL_PROMPT_WITH_IMAGES) as [[before after]|] eqn:Hfind;
      [|vm_compute in Hfind; discriminate].
    exists before, after. split; [now apply find_sound|].
    now rewrite GetSubstitution_plain.
  - destruct (find "{symptoms}" MEDICAL_PROMPT) as [[before after]|] eqn:Hfind;
      [|vm_compute in Hfind; discriminate].
    exists before, after. split; [now apply find_sound|].
    now rewrite GetSubstitution_plain.
Qed.

Lemma render_interpolates_witness :
  exists before after,
    template true = before ++ js "{symptoms}" ++ after /\
    AIService.render true [js "Fever"; js "Dry cough"]
    = before ++ join ", " [js "Fever"; js "Dry cough"] ++ after.
Proof.
  apply (render_interpolates true [js "Fever"; js "Dry cough"]).
  apply not_In_existsb. vm_compute. reflexivity.
Defined.

Lemma split_no_separator (sep : N) (s : jsstring) :
  ~ In sep s -> split sep s = [s].
Proof.
  induction s as [|c s IH]; simpl; intros Hno; [reflexivity|].
  destruct (N.eqb_spec c sep) as [->|_]; [exfalso; apply Hno; now left|].
  rewrite IH; [reflexivity|]. intros Hin. apply Hno. now right.
Qed.

Lemma split_at_separator (sep : N) (head rest : jsstring) :
  ~ In sep head -> split sep (head ++ sep :: rest) = head :: split sep rest.
Proof.
  induction head as [|c head IH]; simpl; intros Hno.
  - now rewrite N.eqb_refl.
  - destruct (N.eqb_spec c sep) as [->|_]; [exfalso; apply Hno; now left|].
    rewrite IH; [reflexivity|]. intros Hin. apply Hno. now right.
Qed.

(** X8. Of a data URL made of a header without comma, a comma and a
    payload without comma, [fileToBase64] gives the payload. *)
Theorem fileToBase64_payload (mime header payload : jsstring) :
  ~ In (chr ",") header -> ~ In (chr ",") payload ->
  AIService.fileToBase64
    {| file_type := mime; read_result := Some (header ++ chr "," :: payload) |}
  = Some (String payload).
Proof.
  intros Hheader Hpayload. unfold AIService.fileToBase64. cbn [read_result].
  now rewrite (split_at_separator _ header payload Hheader),
              (split_no_separator _ payload Hpayload).
Qed.

Lemma fileToBase64_payload_witness :
  AIService.fileToBase64
    {| file_type := js "image/png";
       read_result := Some (js "data:image/png;base64" ++ chr "," :: js "iVBORw0KGgo=") |}
  = Some (String "iVBORw0KGgo=").
Proof.
  apply (fileToBase64_payload (js "image/png") (js "data:image/png;base64") (js "iVBORw0KGgo="));
    apply not_In_existsb; vm_compute; reflexivity.
Defined.

(** X9. The image parts of a Gemini request are those of the images that
    can be read, in order, each with its file's MIME type; an image that
    cannot be read is left out, and no part is added. *)
Theorem image_parts_readable (images : list Image) :
  map mime_type (AIService.image_parts images) = map file_type (filter readable images) /\
  List.length (AIService.image_parts images) <= List.length images.
Proof.
  induction images as [|image images [IHm IHl]]; simpl; [split; [reflexivity|lia]|].
  unfold readable at 1, AIService.fileToBase64.
  destruct (read_result image); simpl; split; try lia; now rewrite ?IHm.
Qed.

Section Requests.

Variable env : Env.
Variable fetch : Request -> option Response.
Variable this : AIService_t.
Variable c : Config.
Hypothesis Hconfig : config this = Some c.

Lemma callGemini_request (prompt : jsstring) (images : list Image) (w : World) :
  exists r,
    requests (snd (AIService.callGemini fetch this prompt images w)) = requests w ++ [r] /\
    prompt_text r = prompt /\ inline_data r = AIService.image_parts images.
Proof.
  eexists. split; [|split].
  - unfold AIService.callGemini, AIService.the_config. rewrite Hconfig.
    unfold mbind at 1. cbn [ret].
    rewrite requests_send by (intros response; keeps). reflexivity.
  - reflexivity.
  - reflexivity.
Qed.

Lemma callOpenAI_request (prompt : jsstring) (images : list Image) (w : World) :
  exists r,
    requests (snd (AIService.callOpenAI fetch this prompt images w)) = requests w ++ [r] /\
    prompt_text r = prompt /\ inline_data r = [].
Proof.
  eexists. split; [|split].
  - unfold AIService.callOpenAI, AIService.the_config. rewrite Hconfig.
    unfold mbind at 1. cbn [ret].
    rewrite requests_send by (intros response; unfold AIService.choice_content; keeps).
    reflexivity.
  - reflexivity.
  - reflexivity.
Qed.

Lemma callAzureOpenAI_request (prompt : jsstring) (images : list Image) (w : World) :
  exists r,
    requests (snd (AIService.callAzureOpenAI fetch this prompt images w)) = requests w ++ [r] /\
    prompt_text r = prompt /\ inline_data r = [].
Proof.
  eexists. split; [|split].
  - unfold AIService.callAzureOpenAI, AIService.the_config. rewrite Hconfig.
    unfold mbind at 1. cbn [ret].
    rewrite requests_send by (intros response; unfold AIService.choice_content; keeps).
    reflexivity.
  - reflexivity.
  - reflexivity.
Qed.

Lemma callAnthropic_request (prompt : jsstring) (images : list Image) (w : World) :
  exists r,
    requests (snd (AIService.callAnthropic fetch this prompt images w)) = requests w ++ [r] /\
    prompt_text r = prompt /\ inline_data r = [].
Proof.
  eexists. split; [|split].
  - unfold AIService.callAnthropic, AIService.the_config. rewrite Hconfig.
    unfold mbind at 1. cbn [ret].
    rewrite requests_send by (intros response; keeps). reflexivity.
  - reflexivity.
  - reflexivity.
Qed.

(** X10. For the services OpenAI, Azure OpenAI and Anthropic the method
    sends one request, and that request carries no image, whatever images
    it was given; with images, its prompt is the image-aware one all the
    same. *)
Theorem other_services_send_no_images
  (symptoms : list jsstring) (images : list Image) (w : World) :
  known_service (AI_SERVICE env) = true ->
  str_eqb (AI_SERVICE env) "gemini" = false ->
  exists r,
    requests (snd (AIService.diagnose env fetch this symptoms images w)) = requests w ++ [r] /\
    inline_data r = [] /\
    prompt_text r
    = AIService.render (match images with [] => false | _ :: _ => true end) symptoms.
Proof.
  intros Hknown Hgemini. unfold AIService.diagnose.
  rewrite snd_try_catch by (intros e; keeps).
  unfold known_service in Hknown. cbn [existsb] in Hknown.
  rewrite Hgemini in *. cbn [orb] in Hknown.
  destruct (str_eqb (AI_SERVICE env) "openai").
  { destruct (callOpenAI_request
                (AIService.render (match images with [] => false | _ :: _ => true end) symptoms)
                (if match images with [] => false | _ :: _ => true end then images else []) w)
      as (r & Hr & Hp & Hi). now exists r. }
  destruct (str_eqb (AI_SERVICE env) "azure").
  { destruct (callAzureOpenAI_request
                (AIService.render (match images with [] => false | _ :: _ => true end) symptoms)
                (if match images with [] => false | _ :: _ => true end then images else []) w)
      as (r & Hr & Hp & Hi). now exists r. }
  destruct (str_eqb (AI_SERVICE env) "anthropic"); [|discriminate].
  destruct (callAnthropic_request
              (AIService.render (match images with [] => false | _ :: _ => true end) symptoms)
              (if match images with [] => false | _ :: _ => true end then images else []) w)
    as (r & Hr & Hp & Hi). now exists r.
Qed.

(** X11. For the service Gemini the method sends one request, whose image
    parts are those of the images it was given and whose prompt is the
    image-aware one exactly when there are images. *)
Theorem gemini_sends_images
  (symptoms : list jsstring) (images : list Image) (w : World) :
  str_eqb (AI_SERVICE env) "gemini" = true ->
  exists r,
    requests (snd (AIService.diagnose env fetch this symptoms images w)) = requests w ++ [r] /\
    inline_data r = AIService.image_parts images /\
    prompt_text r
    = AIService.render (match images with [] => false | _ :: _ => true end) symptoms.
Proof.
  intros Hgemini. unfold AIService.diagnose.
  rewrite snd_try_catch by (intros e; keeps).
  rewrite Hgemini.
  destruct (callGemini_request
              (AIService.render (match images with [] => false | _ :: _ => true end) symptoms)
              (if match images with [] => false | _ :: _ => true end then images else []) w)
    as (r & Hr & Hp & Hi).
  exists r. repeat split; auto. rewrite Hi. now destruct images.
Qed.

End Requests.

Lemma other_services_send_no_images_witness :
  exists r,
    requests (snd (AIService.diagnose openai_configured offline
                     {| config := AI_CONFIG openai_configured "openai" |}
                     [js "Rash"] [photo] initial))
    = requests initial ++ [r] /\
    inline_data r = [] /\
    prompt_text r = AIService.render true [js "Rash"].
Proof.
  eapply (other_services_send_no_images openai_configured offline
            {| config := AI_CONFIG openai_configured "openai" |}).
  - vm_compute. reflexivity.
  - vm_compute. reflexivity.
  - vm_compute. reflexivity.
Defined.

Lemma gemini_sends_images_witness :
  exists r,
    requests (snd (AIService.diagnose gemini_configured offline
                     {| config := AI_CONFIG gemini_configured "gemini" |}
                     [js "Rash"] [unreadable_photo; photo] initial))
    = requests initial ++ [r] /\
    inline_data r = AIService.image_parts [unreadable_photo; photo] /\
    prompt_text r = AIService.render true [js "Rash"].
Proof.
  eapply (gemini_sends_images gemini_configured offline
            {| config := AI_CONFIG gemini_configured "gemini" |}).
  - vm_compute. reflexivity.
  - vm_compute. reflexivity.
Defined.

(* ===================================================================== *)
(** * Further properties: the service and the entry point                 *)
(* ===================================================================== *)

Section Service.

Variable env : Env.
Variable fetch : Request -> option Response.

Lemma call_without_config (this : AIService_t)
  (k : Config -> M (list DiagnosisRecord)) (w : World) :
  config this = None ->
  mbind (AIService.the_config this) k w = (Throw TypeError, w).
Proof. intros H. unfold mbind, AIService.the_config. now rewrite H. Qed.

(** The method sends one request at most. *)
Lemma AIService_diagnose_at_most_one
  (this : AIService_t) (symptoms : list jsstring) (images : list Image) (w : World) :
  exists rs,
    requests (snd (AIService.diagnose env fetch this symptoms images w)) = requests w ++ rs /\
    List.length rs <= 1.
Proof.
  assert (Hnone : exists rs : list Request, requests w = requests w ++ rs /\ List.length rs <= 1)
    by (exists []; split; [now rewrite app_nil_r|simpl; lia]).
  unfold AIService.diagnose. rewrite snd_try_catch by (intros e; keeps).
  destruct (config this) as [c|] eqn:Hc.
  - destruct (str_eqb (AI_SERVICE env) "gemini").
    { destruct (callGemini_request fetch this c Hc
                  (AIService.render (match images with [] => false | _ :: _ => true end) symptoms)
                  (if match images with [] => false | _ :: _ => true end then images else []) w)
        as (r & Hr & _). exists [r]. split; [exact Hr|simpl; lia]. }
    destruct (str_eqb (AI_SERVICE env) "openai").
    { destruct (callOpenAI_request fetch this c Hc
                  (AIService.render (match images with [] => false | _ :: _ => true end) symptoms)
                  (if match images with [] => false | _ :: _ => true end then images else []) w)
        as (r & Hr & _). exists [r]. split; [exact Hr|simpl; lia]. }
    destruct (str_eqb (AI_SERVICE env) "azure").
    { destruct (callAzureOpenAI_request fetch this c Hc
                  (AIService.render (match images with [] => false | _ :: _ => true end) symptoms)
                  (if match images with [] => false | _ :: _ => true end then images else []) w)
        as (r & Hr & _). exists [r]. split; [exact Hr|simpl; lia]. }
    destruct (str_eqb (AI_SERVICE env) "anthropic").
    { destruct (callAnthropic_request fetch this c Hc
                  (AIService.render (match images with [] => false | _ :: _ => true end) symptoms)
                  (if match images with [] => false | _ :: _ => true end then images else []) w)
        as (r & Hr & _). exists [r]. split; [exact Hr|simpl; lia]. }
    exact Hnone.
  - destruct (str_eqb (AI_SERVICE env) "gemini");
      [unfold AIService.callGemini; now rewrite call_without_config|].
    destruct (str_eqb (AI_SERVICE env) "openai");
      [unfold AIService.callOpenAI; now rewrite call_without_config|].
    destruct (str_eqb (AI_SERVICE env) "azure");
      [unfold AIService.callAzureOpenAI; now rewrite call_without_config|].
    destruct (str_eqb (AI_SERVICE env) "anthropic");
      [unfold AIService.callAnthropic; now rewrite call_without_config|].
    exact Hnone.
Qed.

Lemma getAIService_requests (w : World) :
  requests (snd (getAIService env w)) = requests w /\
  exists o, fst (getAIService env w) = Return o.
Proof.
  unfold getAIService. destruct (aiServiceInstance w) as [s|].
  - split; [reflexivity|eexists; reflexivity].
  - destruct (AIService.new env); (split; [reflexivity|eexists; reflexivity]).
Qed.

(** X12. One call of the exported [diagnose] sends one request at most,
    whatever the configuration, the network and the module state: there is
    no retry after a failure. *)
Theorem diagnose_sends_at_most_one (symptoms : list jsstring) (w : World) :
  exists rs,
    requests (snd (diagnose env fetch symptoms w)) = requests w ++ rs /\
    List.length rs <= 1.
Proof.
  unfold diagnose, mbind at 1.
  destruct (getAIService_requests w) as [Hreq [o Ho]].
  destruct (getAIService env w) as [[o'|e] w1]; simpl in Ho, Hreq; [|discriminate].
  rewrite <- Hreq. destruct o' as [service|].
  - rewrite snd_try_catch by (intros e; keeps).
    apply AIService_diagnose_at_most_one.
  - exists []. split; [|simpl; lia].
    rewrite app_nil_r. f_equal.
    assert (Hk : keeps_world (mbind (lift (AIService.new env))
                   (fun mockService => ret (AIService.getMockFallback mockService symptoms))))
      by keeps.
    apply Hk.
Qed.

(** X13. When the constructor accepts the configuration, the exported
    [diagnose] returns records to its caller whatever the network answers
    and whatever the module state: it never throws. *)
Theorem diagnose_returns_when_configured
  (symptoms : list jsstring) (w : World) (mock : AIService_t) :
  AIService.new env = Return mock ->
  exists records, fst (diagnose env fetch symptoms w) = Return records.
Proof.
  intros Hnew. unfold diagnose, mbind at 1, getAIService. rewrite Hnew.
  assert (Htry : forall service w0,
             exists records,
               fst (try_catch (AIService.diagnose env fetch service symptoms [])
                      (fun _ => mbind (lift (Return mock))
                         (fun mockService =>
                            ret (AIService.getMockFallback mockService symptoms))) w0)
               = Return records).
  { intros service w0. unfold try_catch.
    destruct (AIService.diagnose env fetch service symptoms [] w0) as [[records|e] w'].
    - now exists records.
    - eexists. reflexivity. }
  destruct (aiServiceInstance w) as [service|]; apply Htry.
Qed.

(** Over a failing network the method throws. *)
Lemma AIService_diagnose_fails
  (this : AIService_t) (symptoms : list jsstring) (images : list Image) (w : World) :
  failing fetch ->
  exists e, fst (AIService.diagnose env fetch this symptoms images w) = Throw e.
Proof.
  intros Hfail.
  assert (Hsend : forall r (k : Response -> M (list DiagnosisRecord)) (p : provider) w0,
             (forall response, ok response = false ->
                k response = throw (AIService.api_error p response)) ->
             exists e, fst (mbind (AIService.send fetch r) k w0) = Throw e).
  { intros r k p w0 Hk. unfold mbind, AIService.send.
    destruct (fetch r) as [response|] eqn:Hr; [|eexists; reflexivity].
    rewrite (Hk response (Hfail r response Hr)). eexists. reflexivity. }
  assert (Hwrap : forall m : M (list DiagnosisRecord),
             (exists e, fst (m w) = Throw e) ->
             exists e, fst (try_catch m (fun error => throw (DiagnosisFailed error)) w)
                       = Throw e).
  { intros m [e He]. unfold try_catch. destruct (m w) as [[a|e'] w']; [discriminate|].
    eexists. reflexivity. }
  unfold AIService.diagnose. apply Hwrap.
  assert (Hcall : forall r (k : Response -> M (list DiagnosisRecord)) (p : provider),
             (forall response, ok response = false ->
                k response = throw (AIService.api_error p response)) ->
             exists e, fst (mbind (AIService.the_config this)
                              (fun _ => mbind (AIService.send fetch r) k) w) = Throw e).
  { intros r k p Hk. unfold mbind at 1, AIService.the_config.
    destruct (config this); [apply (Hsend r k p w Hk)|eexists; reflexivity]. }
  destruct (str_eqb (AI_SERVICE env) "gemini").
  { unfold AIService.callGemini, mbind at 1, AIService.the_config.
    destruct (config this); [|eexists; reflexivity].
    eapply (Hsend _ _ Gemini). intros response ->. reflexivity. }
  destruct (str_eqb (AI_SERVICE env) "openai").
  { unfold AIService.callOpenAI, mbind at 1, AIService.the_config.
    destruct (config this); [|eexists; reflexivity].
    eapply (Hsend _ _ OpenAI). intros response ->. reflexivity. }
  destruct (str_eqb (AI_SERVICE env) "azure").
  { unfold AIService.callAzureOpenAI, mbind at 1, AIService.the_config.
    destruct (config this); [|eexists; reflexivity].
    eapply (Hsend _ _ AzureOpenAI). intros response ->. reflexivity. }
  destruct (str_eqb (AI_SERVICE env) "anthropic").
  { unfold AIService.callAnthropic, mbind at 1, AIService.the_config.
    destruct (config this); [|eexists; reflexivity].
    eapply (Hsend _ _ Anthropic). intros response ->. reflexivity. }
  eexists. reflexivity.
Qed.

(** X14. When the constructor accepts the configuration and every call on
    the network fails, by a rejected promise or by a status outside 200 to
    299, the exported [diagnose] returns the mock record "General Health
    Assessment", whatever the service and the module state. *)
Theorem diagnose_falls_back_on_failing_network
  (symptoms : list jsstring) (w : World) (mock : AIService_t) :
  AIService.new env = Return mock ->
  failing fetch ->
  fst (diagnose env fetch symptoms w)
  = Return (AIService.getMockFallback mock symptoms).
Proof.
  intros Hnew Hfail. unfold diagnose, mbind at 1, getAIService. rewrite Hnew.
  assert (Htry : forall service w0,
             fst (try_catch (AIService.diagnose env fetch service symptoms [])
                    (fun _ => mbind (lift (Return mock))
                       (fun mockService =>
                          ret (AIService.getMockFallback mockService symptoms))) w0)
             = Return (AIService.getMockFallback mock symptoms)).
  { intros service w0. unfold try_catch.
    destruct (AIService_diagnose_fails service symptoms [] w0 Hfail) as [e He].
    destruct (AIService.diagnose env fetch service symptoms [] w0) as [[records|e'] w'];
      [discriminate|reflexivity]. }
  destruct (aiServiceInstance w) as [service|]; apply Htry.
Qed.


(** X16. An instance the constructor returns for one of the four services
    has a configuration with a non-empty API key, and for Azure a
    non-empty endpoint and deployment name as well. *)
Theorem constructed_service_has_key (this : AIService_t) :
  AIService.new env = Return this ->
  known_service (AI_SERVICE env) = true ->
  exists c, config this = Some c /\
            truthy (apiKey c) = true /\
            (str_eqb (AI_SERVICE env) "azure" = true ->
             truthy (endpoint c) = true /\ truthy (deploymentName c) = true).
Proof.
  unfold AIService.new, AIService.validateConfig, known_service.
  cbn [config existsb bind].
  destruct (AI_CONFIG env (AI_SERVICE env)) as [c|]; [|discriminate].
  destruct (truthy (apiKey c)) eqn:Hkey, (truthy (endpoint c)) eqn:Hendpoint,
    (truthy (deploymentName c)) eqn:Hdeployment,
    (str_eqb (AI_SERVICE env) "gemini"), (str_eqb (AI_SERVICE env) "openai"),
    (str_eqb (AI_SERVICE env) "azure"), (str_eqb (AI_SERVICE env) "anthropic");
    cbn; intros Hnew Hknown; try discriminate;
    injection Hnew as <-; exists c; cbn [config]; repeat split; auto; discriminate.
Qed.

End Service.

Lemma server_error_failing : failing server_error.
Proof. intros r response [= <-]. reflexivity. Qed.

Lemma diagnose_returns_when_configured_witness :
  exists records,
    fst (diagnose gemini_configured server_error [js "Fever"] initial) = Return records.
Proof.
  apply (diagnose_returns_when_configured gemini_configured server_error [js "Fever"] initial
           {| config := AI_CONFIG gemini_configured "gemini" |}).
  vm_compute. reflexivity.
Defined.

Lemma diagnose_falls_back_on_failing_network_witness :
  fst (diagnose openai_configured server_error [js "Fever"] initial)
  = Return (AIService.getMockFallback
              {| config := AI_CONFIG openai_configured "openai" |} [js "Fever"]).
Proof.
  apply (diagnose_falls_back_on_failing_network openai_configured server_error
           [js "Fever"] initial {| config := AI_CONFIG openai_configured "openai" |}).
  - vm_compute. reflexivity.
  - exact server_error_failing.
Defined.


Lemma constructed_service_has_key_witness :
  exists c, config {| config := AI_CONFIG openai_configured "openai" |} = Some c /\
            truthy (apiKey c) = true /\
            (str_eqb (AI_SERVICE openai_configured) "azure" = true ->
             truthy (endpoint c) = true /\ truthy (deploymentName c) = true).
Proof.
  apply (constructed_service_has_key openai_configured
           {| config := AI_CONFIG openai_configured "openai" |}).
  - vm_compute. reflexivity.
  - vm_compute. reflexivity.
Defined.

Section Gemini.

Variable fetch : Request -> option Response.
Variable this : AIService_t.
Variable c : Config.
Variable response : Response.
Variable ps : list (jsstring * value).
Hypothesis Hconfig : config this = Some c.
Hypothesis Hfetch : forall r, fetch r = Some response.
Hypothesis Hok : ok response = true.
Hypothesis Hbody : JSON_parse (body response) = Some (Object ps).

Lemma callGemini_answer (prompt : jsstring) (images : list Image) (w : World) :
  fst (AIService.callGemini fetch this prompt images w)
  = fst ((candidates <- lift (get (Object ps) "candidates") ;;
          first <- (if ToBoolean candidates then lift (get candidates "0")
                    else ret Undefined) ;;
          content <- (if ToBoolean first then lift (get first "content")
                      else ret Undefined) ;;
          if negb (ToBoolean content) then throw InvalidGeminiFormat
          else
            parts <- lift (get content "parts") ;;
            part <- lift (get parts "0") ;;
            responseText <- lift (get part "text") ;;
            lift (AIService.parseAIResponse responseText))
           {| aiServiceInstance := aiServiceInstance w;
              requests := requests w ++
                [ {| url := interpolate (baseURL c) ++ js "/models/" ++ interpolate (model c)
                            ++ js ":generateContent?key=" ++ interpolate (apiKey c);
                     credential := None;
                     body_model := None;
                     system_message := None;
                     prompt_text := prompt;
                     inline_data := AIService.image_parts images |} ] |}).
Proof.
  unfold AIService.callGemini, AIService.the_config. rewrite Hconfig.
  unfold mbind at 1. cbn [ret].
  unfold mbind at 1, AIService.send. rewrite Hfetch, Hok. cbn [negb].
  unfold mbind at 1, lift at 1, json. rewrite Hbody. reflexivity.
Qed.

(** X17. When Gemini answers with a status from 200 to 299 and a JSON
    object that has no [candidates], or an empty [candidates] array, as it
    does for a blocked prompt, [callGemini] throws "Invalid response format
    from Gemini API". *)
Theorem callGemini_without_candidates
  (prompt : jsstring) (images : list Image) (w : World) :
  lookup ps "candidates" = None \/ lookup ps "candidates" = Some (Array []) ->
  fst (AIService.callGemini fetch this prompt images w) = Throw InvalidGeminiFormat.
Proof.
  intros Hcandidates. rewrite callGemini_answer.
  unfold mbind, lift, get. cbn [Get].
  destruct Hcandidates as [-> | ->]; reflexivity.
Qed.

(** X18. When Gemini answers with a status from 200 to 299 and the
    envelope [{candidates: [{content: {parts: [{text: ...}]}}]}],
    [callGemini] gives what the normalizer makes of the text of the first
    part of the first candidate. *)
Theorem callGemini_normalizes_first_candidate
  (prompt : jsstring) (images : list Image) (w : World)
  (candidate content part : list (jsstring * value))
  (candidates parts : list value) (text : value) :
  lookup ps "candidates" = Some (Array (Object candidate :: candidates)) ->
  lookup candidate "content" = Some (Object content) ->
  lookup content "parts" = Some (Array (Object part :: parts)) ->
  lookup part "text" = Some text ->
  fst (AIService.callGemini fetch this prompt images w)
  = AIService.parseAIResponse text.
Proof.
  intros Hcandidates Hcontent Hparts Htext. rewrite callGemini_answer.
  unfold mbind, lift, get, ret. cbn in Hcandidates, Hcontent, Hparts, Htext |- *.
  rewrite Hcandidates. cbn. rewrite Hcontent. cbn. rewrite Hparts. cbn.
  rewrite Htext. reflexivity.
Qed.

End Gemini.

Lemma callGemini_without_candidates_witness :
  fst (AIService.callGemini (fun _ => Some blocked_answer)
         {| config := AI_CONFIG gemini_configured "gemini" |}
         (AIService.render false [js "Fever"]) [] initial)
  = Throw InvalidGeminiFormat.
Proof.
  eapply (callGemini_without_candidates (fun _ => Some blocked_answer)
            {| config := AI_CONFIG gemini_configured "gemini" |}).
  - reflexivity.
  - intros r. reflexivity.
  - vm_compute. reflexivity.
  - vm_compute. reflexivity.
  - left. vm_compute. reflexivity.
Defined.

Lemma callGemini_normalizes_first_candidate_witness :
  fst (AIService.callGemini (fun _ => Some cold_answer)
         {| config := AI_CONFIG gemini_configured "gemini" |}
         (AIService.render false [js "Sneezing"]) [] initial)
  = AIService.parseAIResponse (String (jsq "{`conditions`:[{`condition`:`Cold`}]}")).
Proof.
  eapply (callGemini_normalizes_first_candidate (fun _ => Some cold_answer)
            {| config := AI_CONFIG gemini_configured "gemini" |}).
  - reflexivity.
  - intros r. reflexivity.
  - vm_compute. reflexivity.
  - vm_compute. reflexivity.
  - vm_compute. reflexivity.
  - vm_compute. reflexivity.
  - vm_compute. reflexivity.
  - vm_compute. reflexivity.
Defined.

(* ===================================================================== *)
(** * Further properties: the status panel and the result badges          *)
(* ===================================================================== *)

(** X19. When the status panel reports the AI service as configured, the
    constructor of [AIService] accepts the configuration. *)
Theorem configured_status_constructs (env : Env) :
  AIConfigStatus.isConfigured (AIConfigStatus.checkAIConfiguration env) = true ->
  exists this, AIService.new env = Return this.
Proof.
  unfold AIConfigStatus.checkAIConfiguration. fold (AI_SERVICE env).
  unfold AIService.new, AIService.validateConfig, AI_CONFIG. cbn [config].
  destruct (str_eqb (AI_SERVICE env) "gemini") eqn:Hg.
  { apply str_eqb_eq in Hg. rewrite Hg. cbn.
    destruct (truthy (VITE_GEMINI_API_KEY env)); [|discriminate].
    intros _. eexists. reflexivity. }
  destruct (str_eqb (AI_SERVICE env) "openai") eqn:Ho.
  { apply str_eqb_eq in Ho. rewrite Ho. cbn.
    destruct (truthy (VITE_OPENAI_API_KEY env)); [|discriminate].
    intros _. eexists. reflexivity. }
  destruct (str_eqb (AI_SERVICE env) "azure") eqn:Ha.
  { apply str_eqb_eq in Ha. rewrite Ha. cbn.
    destruct (truthy (VITE_AZURE_OPENAI_API_KEY env)); [|discriminate].
    destruct (truthy (VITE_AZURE_OPENAI_ENDPOINT env)); [|discriminate].
    destruct (truthy (VITE_AZURE_OPENAI_DEPLOYMENT_NAME env)); [|discriminate].
    intros _. eexists. reflexivity. }
  destruct (str_eqb (AI_SERVICE env) "anthropic") eqn:Hn.
  { apply str_eqb_eq in Hn. rewrite Hn. cbn.
    destruct (truthy (VITE_ANTHROPIC_API_KEY env)); [|discriminate].
    intros _. eexists. reflexivity. }
  cbn. discriminate.
Qed.

Lemma configured_status_constructs_witness :
  exists this, AIService.new openai_configured = Return this.
Proof.
  apply (configured_status_constructs openai_configured).
  vm_compute. reflexivity.
Defined.




(** X21. The badge of an urgency is the neutral variant "secondary"
    exactly when the urgency is none of the strings "low", "medium" and
    "high". *)
Theorem getUrgencyColor_secondary_iff (urgency : value) :
  App.getUrgencyColor urgency = js "secondary" <-> ~ urgency_level urgency.
Proof.
  split.
  - intros Hcolor [-> | [-> | ->]]; vm_compute in Hcolor; discriminate.
  - intros Hnot. destruct urgency as [| | | |s| |]; try reflexivity.
    unfold App.getUrgencyColor.
    destruct (str_eqb s "high") eqn:Hh.
    { apply str_eqb_eq in Hh. subst. exfalso. apply Hnot. right; right. reflexivity. }
    destruct (str_eqb s "medium") eqn:Hm.
    { apply str_eqb_eq in Hm. subst. exfalso. apply Hnot. right; left. reflexivity. }
    destruct (str_eqb s "low") eqn:Hl; [|reflexivity].
    apply str_eqb_eq in Hl. subst. exfalso. apply Hnot. left. reflexivity.
Qed.

(** X22. A record the normalizer makes of an element whose urgency is
    missing or otherwise falsy gets the badge "success", that of a low
    urgency. *)
Theorem missing_urgency_badge (e : value) (r : DiagnosisRecord) :
  AIService.normalize e = Return r ->
  ToBoolean (field e "urgency") = false ->
  App.getUrgencyColor (urgency r) = js "success".
Proof.
  intros Hn Hfalsy. apply normalize_inv in Hn as (-> & _ & _ & _).
  cbn [record_of urgency]. unfold or_else. rewrite Hfalsy. reflexivity.
Qed.

Lemma missing_urgency_badge_witness :
  App.getUrgencyColor (urgency default_record) = js "success".
Proof.
  apply (missing_urgency_badge (Object []) default_record); reflexivity.
Defined.

(* ===================================================================== *)
(** * Further properties: the symptom form                                *)
(* ===================================================================== *)

Lemma includes_In (prev : list jsstring) (symptom : jsstring) :
  SymptomForm.includes prev symptom = true <-> In symptom prev.
Proof.
  unfold SymptomForm.includes. rewrite existsb_exists. split.
  - intros (x & Hin & Heq). apply str_eqb_eq in Heq. now subst.
  - intros Hin. exists symptom. split; [assumption|apply str_eqb_refl].
Qed.

Lemma includes_false (prev : list jsstring) (symptom : jsstring) :
  SymptomForm.includes prev symptom = false <-> ~ In symptom prev.
Proof.
  rewrite <- includes_In. now destruct (SymptomForm.includes prev symptom).
Qed.

Lemma In_toggle (symptom other : jsstring) (prev : list jsstring) :
  In other (SymptomForm.handleSymptomToggle symptom prev) <->
  (other = symptom /\ ~ In symptom prev) \/ (other <> symptom /\ In other prev).
Proof.
  unfold SymptomForm.handleSymptomToggle.
  destruct (SymptomForm.includes prev symptom) eqn:Hinc.
  - apply includes_In in Hinc. rewrite filter_In. split.
    + intros [Hin Hne]. right. split; [|assumption].
      intros ->. rewrite str_eqb_refl in Hne. discriminate.
    + intros [[-> Hno] | [Hne Hin]]; [contradiction|]. split; [assumption|].
      destruct (str_eqb other symptom) eqn:He; [|reflexivity].
      apply str_eqb_eq in He. contradiction.
  - apply includes_false in Hinc. rewrite in_app_iff. split.
    + intros [Hin | [<- | []]].
      * right. split; [|assumption]. intros ->. contradiction.
      * now left.
    + intros [[-> _] | [_ Hin]]; [right; now left|now left].
Qed.

(** X23. Toggling a symptom flips whether it is selected and leaves the
    selection of every other symptom as it was. *)
Theorem handleSymptomToggle_flips (symptom : jsstring) (prev : list jsstring) :
  SymptomForm.includes (SymptomForm.handleSymptomToggle symptom prev) symptom
  = negb (SymptomForm.includes prev symptom) /\
  forall other, other <> symptom ->
    SymptomForm.includes (SymptomForm.handleSymptomToggle symptom prev) other
    = SymptomForm.includes prev other.
Proof.
  split.
  - destruct (SymptomForm.includes prev symptom) eqn:Hinc; cbn [negb].
    + apply includes_false. rewrite In_toggle. intros [[_ Hno] | [Hne _]].
      * apply includes_In in Hinc. contradiction.
      * now apply Hne.
    + apply includes_In. rewrite In_toggle. left.
      split; [reflexivity|now apply includes_false].
  - intros other Hne.
    destruct (SymptomForm.includes prev other) eqn:Hinc.
    + apply includes_In. rewrite In_toggle. right.
      split; [assumption|now apply includes_In].
    + apply includes_false. rewrite In_toggle. intros [[Heq _] | [_ Hin]].
      * contradiction.
      * apply includes_false in Hinc. contradiction.
Qed.

(** X24. Toggling keeps the selection free of duplicates. *)
Theorem handleSymptomToggle_NoDup (symptom : jsstring) (prev : list jsstring) :
  NoDup prev -> NoDup (SymptomForm.handleSymptomToggle symptom prev).
Proof.
  intros Hnd. unfold SymptomForm.handleSymptomToggle.
  destruct (SymptomForm.includes prev symptom) eqn:Hinc.
  - now apply NoDup_filter.
  - apply includes_false in Hinc. apply NoDup_app; [assumption|repeat constructor; auto|].
    intros a Hin [<- | []]. contradiction.
Qed.

Lemma handleSymptomToggle_NoDup_witness :
  NoDup (SymptomForm.handleSymptomToggle (js "Cough") [js "Fever"; js "Cough"]).
Proof.
  apply (handleSymptomToggle_NoDup (js "Cough") [js "Fever"; js "Cough"]).
  constructor; [|constructor; [|constructor]].
  - intros [H | []]. vm_compute in H. discriminate.
  - intros [].
Defined.

Lemma filter_not_in (symptom : jsstring) (prev : list jsstring) :
  ~ In symptom prev ->
  filter (fun s => negb (str_eqb s symptom)) prev = prev.
Proof.
  induction prev as [|x prev IH]; simpl; intros Hno; [reflexivity|].
  destruct (str_eqb x symptom) eqn:He.
  - apply str_eqb_eq in He. exfalso. apply Hno. now left.
  - simpl. rewrite IH; [reflexivity|]. intros Hin. apply Hno. now right.
Qed.

(** X25. Ticking a symptom that is not selected and unticking it again
    gives back the selection as it was, order included. *)
Theorem handleSymptomToggle_twice (symptom : jsstring) (prev : list jsstring) :
  SymptomForm.includes prev symptom = false ->
  SymptomForm.handleSymptomToggle symptom (SymptomForm.handleSymptomToggle symptom prev)
  = prev.
Proof.
  intros Hinc. unfold SymptomForm.handleSymptomToggle at 2. rewrite Hinc.
  unfold SymptomForm.handleSymptomToggle.
  assert (Hnow : SymptomForm.includes (prev ++ [symptom]) symptom = true).
  { apply includes_In, in_or_app. right. now left. }
  rewrite Hnow, filter_app. cbn [filter]. rewrite str_eqb_refl. cbn [negb].
  rewrite app_nil_r. apply filter_not_in. now apply includes_false.
Qed.

Lemma handleSymptomToggle_twice_witness :
  SymptomForm.handleSymptomToggle (js "Cough")
    (SymptomForm.handleSymptomToggle (js "Cough") [js "Fever"; js "Nausea"])
  = [js "Fever"; js "Nausea"].
Proof.
  apply (handleSymptomToggle_twice (js "Cough") [js "Fever"; js "Nausea"]).
  vm_compute. reflexivity.
Defined.










(** For a service name that is none of the four the method contacts no
    provider: it sends nothing and throws "Unsupported AI service". *)
Lemma unsupported_service_throws
  (env : Env) (fetch : Request -> option Response) (this : AIService_t)
  (symptoms : list jsstring) (images : list Image) (w : World) :
  known_service (AI_SERVICE env) = false ->
  AIService.diagnose env fetch this symptoms images w
  = (Throw (DiagnosisFailed (UnsupportedService (AI_SERVICE env))), w).
Proof.
  unfold known_service. cbn [existsb]. intros Hunknown.
  apply orb_false_elim in Hunknown as [Hg Hunknown].
  apply orb_false_elim in Hunknown as [Ho Hunknown].
  apply orb_false_elim in Hunknown as [Ha Hunknown].
  apply orb_false_elim in Hunknown as [Hn _].
  unfold AIService.diagnose, try_catch. now rewrite Hg, Ho, Ha, Hn.
Qed.

(** X27. When the service name is none of gemini, openai, azure and
    anthropic and the constructor accepts it all the same (the name of a
    member every object inherits), the exported [diagnose] contacts no
    provider: it sends nothing and returns the mock record. *)
Theorem unsupported_service_falls_back
  (env : Env) (fetch : Request -> option Response)
  (symptoms : list jsstring) (w : World) (mock : AIService_t) :
  known_service (AI_SERVICE env) = false ->
  AIService.new env = Return mock ->
  fst (diagnose env fetch symptoms w) = Return (AIService.getMockFallback mock symptoms) /\
  requests (snd (diagnose env fetch symptoms w)) = requests w.
Proof.
  intros Hunknown Hnew.
  assert (Heq : exists w',
             diagnose env fetch symptoms w
             = (Return (AIService.getMockFallback mock symptoms), w') /\
             requests w' = requests w).
  { unfold diagnose, mbind at 1, getAIService. rewrite Hnew.
    destruct (aiServiceInstance w) as [service|]; unfold try_catch;
      rewrite (unsupported_service_throws env fetch _ symptoms [] _ Hunknown);
      eexists; split; reflexivity. }
  destruct Heq as (w' & -> & Hrequests). split; [reflexivity|exact Hrequests].
Qed.

Lemma unsupported_service_falls_back_witness :
  fst (diagnose inherited_service_env offline [js "Fever"] initial)
  = Return (AIService.getMockFallback {| config := Some no_fields |} [js "Fever"]) /\
  requests (snd (diagnose inherited_service_env offline [js "Fever"] initial))
  = requests initial.
Proof.
  apply (unsupported_service_falls_back inherited_service_env offline [js "Fever"] initial
           {| config := Some no_fields |}).
  - vm_compute. reflexivity.
  - vm_compute. reflexivity.
Defined.

Section Chat.

Variable fetch : Request -> option Response.
Variable this : AIService_t.
Variable c : Config.
Variable response : Response.
Variable ps : list (jsstring * value).
Hypothesis Hconfig : config this = Some c.
Hypothesis Hfetch : forall r, fetch r = Some response.
Hypothesis Hok : ok response = true.
Hypothesis Hbody : JSON_parse (body response) = Some (Object ps).

Lemma choice_content_answer
  (choice message : list (jsstring * value)) (choices : list value) (content : value)
  (w : World) :
  lookup ps "choices" = Some (Array (Object choice :: choices)) ->
  lookup choice "message" = Some (Object message) ->
  lookup message "content" = Some content ->
  fst (AIService.choice_content response w) = AIService.parseAIResponse content.
Proof.
  intros Hchoices Hmessage Hcontent. unfold AIService.choice_content.
  unfold mbind at 1, lift at 1, json. rewrite Hbody.
  unfold mbind, lift, get. cbn in Hchoices, Hmessage, Hcontent |- *.
  rewrite Hchoices. cbn. rewrite Hmessage. cbn. rewrite Hcontent. reflexivity.
Qed.

(** X28. When the provider answers with an ok status and the envelope
    [{choices: [{message: {content: ...}}]}], [callOpenAI] and
    [callAzureOpenAI] both give what the normalizer makes of the content of
    the first choice's message. *)
Theorem chat_calls_normalize_first_choice
  (prompt : jsstring) (images : list Image) (w : World)
  (choice message : list (jsstring * value)) (choices : list value) (content : value) :
  lookup ps "choices" = Some (Array (Object choice :: choices)) ->
  lookup choice "message" = Some (Object message) ->
  lookup message "content" = Some content ->
  fst (AIService.callOpenAI fetch this prompt images w) = AIService.parseAIResponse content /\
  fst (AIService.callAzureOpenAI fetch this prompt images w)
  = AIService.parseAIResponse content.
Proof.
  intros Hchoices Hmessage Hcontent. split.
  - unfold AIService.callOpenAI, AIService.the_config. rewrite Hconfig.
    unfold mbind at 1. cbn [ret].
    unfold mbind at 1, AIService.send. rewrite Hfetch, Hok. cbn [negb].
    now apply (choice_content_answer choice message choices).
  - unfold AIService.callAzureOpenAI, AIService.the_config. rewrite Hconfig.
    unfold mbind at 1. cbn [ret].
    unfold mbind at 1, AIService.send. rewrite Hfetch, Hok. cbn [negb].
    now apply (choice_content_answer choice message choices).
Qed.

(** X29. When Anthropic answers with an ok status and the envelope
    [{content: [{text: ...}]}], [callAnthropic] gives what the normalizer
    makes of the text of the first content block. *)
Theorem callAnthropic_normalizes_first_block
  (prompt : jsstring) (images : list Image) (w : World)
  (block : list (jsstring * value)) (blocks : list value) (text : value) :
  lookup ps "content" = Some (Array (Object block :: blocks)) ->
  lookup block "text" = Some text ->
  fst (AIService.callAnthropic fetch this prompt images w) = AIService.parseAIResponse text.
Proof.
  intros Hcontent Htext.
  unfold AIService.callAnthropic, AIService.the_config. rewrite Hconfig.
  unfold mbind at 1. cbn [ret].
  unfold mbind at 1, AIService.send. rewrite Hfetch, Hok. cbn [negb].
  unfold mbind at 1, lift at 1, json. rewrite Hbody.
  unfold mbind, lift, get. cbn in Hcontent, Htext |- *.
  rewrite Hcontent. cbn. rewrite Htext. reflexivity.
Qed.

End Chat.

Lemma chat_calls_normalize_first_choice_witness :
  fst (AIService.callOpenAI (fun _ => Some chat_answer)
         {| config := AI_CONFIG openai_configured "openai" |}
         (AIService.render false [js "Sneezing"]) [] initial)
  = AIService.parseAIResponse (String (jsq "{`conditions`:[{`condition`:`Cold`}]}")) /\
  fst (AIService.callAzureOpenAI (fun _ => Some chat_answer)
         {| config := AI_CONFIG openai_configured "openai" |}
         (AIService.render false [js "Sneezing"]) [] initial)
  = AIService.parseAIResponse (String (jsq "{`conditions`:[{`condition`:`Cold`}]}")).
Proof.
  eapply (chat_calls_normalize_first_choice (fun _ => Some chat_answer)
            {| config := AI_CONFIG openai_configured "openai" |}).
  - reflexivity.
  - intros r. reflexivity.
  - vm_compute. reflexivity.
  - vm_compute. reflexivity.
  - vm_compute. reflexivity.
  - vm_compute. reflexivity.
  - vm_compute. reflexivity.
Defined.

Lemma callAnthropic_normalizes_first_block_witness :
  fst (AIService.callAnthropic (fun _ => Some message_answer)
         {| config := AI_CONFIG openai_configured "openai" |}
         (AIService.render false [js "Sneezing"]) [] initial)
  = AIService.parseAIResponse (String (jsq "{`conditions`:[{`condition`:`Cold`}]}")).
Proof.
  eapply (callAnthropic_normalizes_first_block (fun _ => Some message_answer)
            {| config := AI_CONFIG openai_configured "openai" |}).
  - reflexivity.
  - intros r. reflexivity.
  - vm_compute. reflexivity.
  - vm_compute. reflexivity.
  - vm_compute. reflexivity.
  - vm_compute. reflexivity.
Defined.
